(** * Hetzner MCP server: the request/response translation layer

    A shallow embedding of [src/api.ts] (transport client and error
    normalizer), [src/tools/servers.ts], [src/tools/ssh-keys.ts],
    [src/tools/reference.ts] (the tool handlers and their formatters) and
    [src/types.ts] (the entities), followed by the properties that the
    specification states about them. *)

From Stdlib Require Import String Ascii List ZArith Lia Bool.
From Stdlib Require Import DecimalString Permutation.
Import ListNotations.

Local Open Scope string_scope.
Local Open Scope Z_scope.

Set Implicit Arguments.

(** ** JavaScript values used by the program *)

Module JS.

(** A JavaScript number.  Every number this program prints is an identifier,
    a count or an HTTP status; they are kept as the integers they are, and
    [Number_toString] is their decimal form, which is what JavaScript prints
    for an integer below [10^21] in magnitude. *)
Definition number := Z.

(** [String(n)] and the template literal [`${n}`] on an integer. *)
Definition Number_toString (n : number) : string :=
  NilZero.string_of_int (Z.to_int n).

(** [`${xs.length}`] on an array. *)
Definition length_toString {A} (xs : list A) : string :=
  Number_toString (Z.of_nat (List.length xs)).

(** Truthiness of a string: only the empty string is falsy. *)
Definition truthy (s : string) : bool :=
  match s with
  | EmptyString => false
  | String _ _ => true
  end.

(** [v?.message || fallback] where [v?.message] is a string or [undefined]:
    [undefined] and the empty string both select [fallback]. *)
Definition or_else (v : option string) (fallback : string) : string :=
  match v with
  | Some s => if truthy s then s else fallback
  | None => fallback
  end.

(** A value as [||] and a template literal see it: a string; another falsy
    value ([undefined], [null], [0], [NaN], [false]) with the text it
    prints as; another truthy value that prints (a number, [true], an
    array, an object with a usable [toString]) with its text; or a truthy
    value whose conversion to a string throws a [TypeError] (a symbol, an
    object whose [toString] and [valueOf] give no primitive) with the
    message of that error. *)
Inductive Value :=
  | VString (s : string)
  | VFalsy (text : string)
  | VPrintable (text : string)
  | VUnprintable (typeError : string).

Coercion VString : string >-> Value.

Definition truthy_value (v : Value) : bool :=
  match v with
  | VString s => truthy s
  | VFalsy _ => false
  | VPrintable _ => true
  | VUnprintable _ => true
  end.

(** [v?.message || fallback] where [v?.message] is any value or
    [undefined]. *)
Definition or_value (v : option Value) (fallback : Value) : Value :=
  match v with
  | Some x => if truthy_value x then x else fallback
  | None => fallback
  end.

(** [ToString(v)], as a template literal applies it: the string, or the
    message of the [TypeError] it throws. *)
Definition ToString (v : Value) : string + string :=
  match v with
  | VString s => inr s
  | VFalsy text => inr text
  | VPrintable text => inr text
  | VUnprintable typeError => inl typeError
  end.

(** A continuation byte of a UTF-8 sequence. *)
Definition continuation (n : nat) : bool := (128 <=? n)%nat && (n <? 192)%nat.

(** The UTF-16 code units of a text kept as its UTF-8 bytes: one for a
    character of one, two or three bytes, two for a character of four
    bytes; [pending] counts the continuation bytes the current character
    still expects, and a byte that belongs to no character counts as one
    unit. *)
Fixpoint utf16_units (pending : nat) (s : string) : nat :=
  match s with
  | EmptyString => 0%nat
  | String c rest =>
      let n := nat_of_ascii c in
      if continuation n then
        match pending with
        | O => S (utf16_units 0 rest)
        | S k => utf16_units k rest
        end
      else if (n <? 128)%nat then S (utf16_units 0 rest)
      else if (n <? 224)%nat then S (utf16_units 1 rest)
      else if (n <? 240)%nat then S (utf16_units 2 rest)
      else S (S (utf16_units 3 rest))
  end.

(** [s.length]. *)
Definition String_length (s : string) : nat := utf16_units 0 s.

(** [Array.prototype.join]. *)
Definition join (sep : string) (xs : list string) : string :=
  String.concat sep xs.

(** [m.startsWith(opening)]. *)
Fixpoint starts_with (opening m : string) {struct opening} : bool :=
  match opening with
  | EmptyString => true
  | String a opening' =>
      match m with
      | String b m' => Ascii.eqb a b && starts_with opening' m'
      | EmptyString => false
      end
  end.

Definition newline : string := String (ascii_of_nat 10) EmptyString.

End JS.

Import JS.

(** ** [src/types.ts]: the provider's error body *)

(** The [message] is declared a string; what the handler receives is
    whatever the body of the answer holds there. *)
Record HetznerErrorBody := mkErrorBody {
  err_code : string;
  err_message : Value
}.

(** [HetznerAPIError | undefined].  The handler reads [data?.error] and then
    [hetznerError?.message], so a body without an [error] member is allowed
    for. *)
Record HetznerAPIError := mkApiError {
  api_error : option HetznerErrorBody
}.

(** ** What a [catch] clause can receive *)

Record AxiosResponse := mkResponse {
  resp_status : number;
  resp_data : option HetznerAPIError
}.

(** An [AxiosError]: an [Error] with an optional [code] and, when the server
    answered, the [response]. *)
Record AxiosError := mkAxiosError {
  ax_message : Value;
  ax_code : option string;
  ax_response : option AxiosResponse
}.

(** A value that is not an [Error] at all ([throw "x"], [throw 42],
    [throw null], ...). *)
Inductive NonError :=
  | ThrownString (s : string)
  | ThrownNumber (n : number)
  | ThrownNull
  | ThrownUndefined.

Inductive Thrown :=
  | IsAxiosError (e : AxiosError)
  | IsError (message : Value)
  | IsOther (v : NonError).

(** ** [src/api.ts]: [handleApiError] *)

Definition hetznerError_message (r : AxiosResponse) : option Value :=
  match resp_data r with
  | Some d =>
      match api_error d with
      | Some b => Some (err_message b)
      | None => None
      end
  | None => None
  end.

Definition code_is (c : option string) (s : string) : bool :=
  match c with
  | Some c' => String.eqb c' s
  | None => false
  end.

(** A template literal [`opening${v}`]: the conversion of [v] may throw. *)
Definition template (opening : string) (v : Value) : Thrown + string :=
  match ToString v with
  | inr text => inr (opening ++ text)
  | inl typeError => inl (IsError (VString typeError))
  end.

Definition handleApiError (err : Thrown) : Thrown + string :=
  let error_branch (message : Value) := template "Error: " message in
  match err with
  | IsAxiosError e =>
      match ax_response e with
      | Some r =>
          let hmsg := hetznerError_message r in
          if resp_status r =? 401 then
            inr "Error: Authentication failed. Please check your HETZNER_API_TOKEN."
          else if resp_status r =? 403 then
            template "Error: Permission denied. "
              (or_value hmsg "You don't have access to this resource.")
          else if resp_status r =? 404 then
            template "Error: Resource not found. "
              (or_value hmsg "Please check the ID is correct.")
          else if resp_status r =? 409 then
            template "Error: Conflict. "
              (or_value hmsg "The resource is in a conflicting state.")
          else if resp_status r =? 422 then
            template "Error: Invalid request. "
              (or_value hmsg "Please check your parameters.")
          else if resp_status r =? 429 then
            inr "Error: Rate limit exceeded. Please wait a moment before making more requests."
          else if resp_status r =? 503 then
            inr "Error: Hetzner API is temporarily unavailable. Please try again later."
          else
            template
              ("Error: API request failed (" ++ Number_toString (resp_status r)
                 ++ "). ")
              (or_value hmsg (ax_message e))
      | None =>
          if code_is (ax_code e) "ECONNABORTED" then
            inr "Error: Request timed out. Please try again."
          else if code_is (ax_code e) "ENOTFOUND" then
            inr "Error: Could not connect to Hetzner API. Please check your internet connection."
          else error_branch (ax_message e)
      end
  | IsError message => error_branch message
  | IsOther _ => inr "Error: An unexpected error occurred."
  end.

(** ** Plain objects used as maps

    A [Record<string, V>] is kept as the list of its own properties in the
    order they were created, each key once.  Enumeration ([Object.keys],
    [Object.entries], [JSON.stringify]) yields the keys that are array
    indices first, in ascending numeric order, and then the other keys in
    creation order. *)

Module Obj.

Definition t (V : Type) := list (string * V).

Definition is_digit (c : ascii) : bool :=
  let n := nat_of_ascii c in (48 <=? n)%nat && (n <=? 57)%nat.

Fixpoint digits_value (acc : N) (s : string) : option N :=
  match s with
  | EmptyString => Some acc
  | String c s' =>
      if is_digit c
      then digits_value (acc * 10 + N.of_nat (nat_of_ascii c - 48))%N s'
      else None
  end.

(** A key is an array index when it is the canonical decimal form of an
    integer below [2^32 - 1]. *)
Definition array_index (k : string) : option N :=
  match k with
  | EmptyString => None
  | String _ _ =>
      match digits_value 0%N k with
      | Some n =>
          if String.eqb (NilZero.string_of_uint (N.to_uint n)) k
             && (n <? 4294967295)%N
          then Some n else None
      | None => None
      end
  end.

Section Enumerate.
Variable V : Type.

Fixpoint insert_index (n : N) (kv : string * V)
    (sorted : list (N * (string * V))) : list (N * (string * V)) :=
  match sorted with
  | [] => [(n, kv)]
  | (m, kv') :: rest =>
      if (n <=? m)%N then (n, kv) :: sorted
      else (m, kv') :: insert_index n kv rest
  end.

Fixpoint index_entries (o : t V) : list (N * (string * V)) :=
  match o with
  | [] => []
  | (k, v) :: rest =>
      match array_index k with
      | Some n => insert_index n (k, v) (index_entries rest)
      | None => index_entries rest
      end
  end.

Definition named_entries (o : t V) : list (string * V) :=
  filter (fun kv => match array_index (fst kv) with
                    | Some _ => false
                    | None => true
                    end) o.

(** [Object.entries(o)]. *)
Definition entries (o : t V) : list (string * V) :=
  map snd (index_entries o) ++ named_entries o.

(** [Object.keys(o)]. *)
Definition keys (o : t V) : list string := map fst (entries o).

(** [o[k]] restricted to own properties. *)
Fixpoint get_own (o : t V) (k : string) : option V :=
  match o with
  | [] => None
  | (k', v) :: rest => if String.eqb k' k then Some v else get_own rest k
  end.

(** [o[k] = v]: an existing property keeps its place, a new one is created
    last. *)
Fixpoint set (o : t V) (k : string) (v : V) : t V :=
  match o with
  | [] => [(k, v)]
  | (k', v') :: rest =>
      if String.eqb k' k then (k', v) :: rest
      else (k', v') :: set rest k v
  end.
End Enumerate.

(** The properties every object literal inherits from [Object.prototype];
    reading one of them through [o[k]] yields a function (or, for
    [__proto__], the prototype object itself), a truthy value that is not an
    array. *)
Definition prototype_keys : list string :=
  [ "constructor"; "__defineGetter__"; "__defineSetter__"; "hasOwnProperty";
    "__lookupGetter__"; "__lookupSetter__"; "isPrototypeOf";
    "propertyIsEnumerable"; "toString"; "valueOf"; "__proto__";
    "toLocaleString" ].

Definition inherited (k : string) : bool :=
  existsb (String.eqb k) prototype_keys.

End Obj.

(** ** JSON values and [JSON.stringify(value, null, 2)] *)

Module JSON.

(** The members of an object are listed in enumeration order. *)
#[local] Unset Elimination Schemes.
Inductive value :=
  | Null
  | Bool (b : bool)
  | Num (n : number)
  | Str (s : string)
  | Arr (items : list value)
  | Object (members : list (string * value)).
#[local] Set Elimination Schemes.

Definition quote : string := String (ascii_of_nat 34) EmptyString.
Definition backslash : string := String (ascii_of_nat 92) EmptyString.

Definition hex_digit (n : nat) : string :=
  String (ascii_of_nat (if (n <? 10)%nat then 48 + n else 87 + n)) EmptyString.

(** One character of [QuoteJSONString]. *)
Definition escape_char (c : ascii) : string :=
  let n := nat_of_ascii c in
  if (n =? 34)%nat then backslash ++ quote
  else if (n =? 92)%nat then backslash ++ backslash
  else if (n =? 8)%nat then backslash ++ "b"
  else if (n =? 9)%nat then backslash ++ "t"
  else if (n =? 10)%nat then backslash ++ "n"
  else if (n =? 12)%nat then backslash ++ "f"
  else if (n =? 13)%nat then backslash ++ "r"
  else if (n <? 32)%nat
  then backslash ++ "u00" ++ hex_digit (n / 16) ++ hex_digit (n mod 16)
  else String c EmptyString.

Fixpoint escape (s : string) : string :=
  match s with
  | EmptyString => EmptyString
  | String c s' => escape_char c ++ escape s'
  end.

Definition quoted (s : string) : string := quote ++ escape s ++ quote.

Definition gap : string := "  ".

(** [SerializeJSONProperty] with the current indentation. *)
Fixpoint serialize (indent : string) (v : value) {struct v} : string :=
  match v with
  | Null => "null"
  | Bool true => "true"
  | Bool false => "false"
  | Num n => Number_toString n
  | Str s => quoted s
  | Arr items =>
      match items with
      | [] => "[]"
      | _ :: _ =>
          let inner := indent ++ gap in
          "[" ++ newline ++ inner
            ++ join ("," ++ newline ++ inner) (map (serialize inner) items)
            ++ newline ++ indent ++ "]"
      end
  | Object members =>
      match members with
      | [] => "{}"
      | _ :: _ =>
          let inner := indent ++ gap in
          "{" ++ newline ++ inner
            ++ join ("," ++ newline ++ inner)
                 (map (fun kv => quoted (fst kv) ++ ": " ++ serialize inner (snd kv))
                      members)
            ++ newline ++ indent ++ "}"
      end
  end.

(** [JSON.stringify(v, null, 2)]. *)
Definition stringify (v : value) : string := serialize EmptyString v.

Definition of_option {A} (f : A -> value) (o : option A) : value :=
  match o with
  | Some a => f a
  | None => Null
  end.

(** A [Record<string, string>] as a JSON object. *)
Definition of_record (o : Obj.t string) : value :=
  Object (map (fun kv => (fst kv, Str (snd kv))) (Obj.entries o)).

End JSON.

(** ** [src/types.ts]: the entities *)

Inductive ResponseFormat := MARKDOWN | JSON_FORMAT.

Inductive ServerStatus :=
  | Running | Initializing | Starting | Stopping | Off
  | Deleting | Rebuilding | Migrating | Unknown.

Definition ServerStatus_text (s : ServerStatus) : string :=
  match s with
  | Running => "running"
  | Initializing => "initializing"
  | Starting => "starting"
  | Stopping => "stopping"
  | Off => "off"
  | Deleting => "deleting"
  | Rebuilding => "rebuilding"
  | Migrating => "migrating"
  | Unknown => "unknown"
  end.

Record IpAddress := mkIp { ip : string }.

Record PublicNet := mkPublicNet {
  ipv4 : option IpAddress;
  ipv6 : option IpAddress
}.

Record ServerTypeRef := mkServerTypeRef {
  stref_id : number;
  stref_name : string;
  stref_description : string;
  stref_cores : number;
  stref_memory : number;
  stref_disk : number
}.

Record LocationRef := mkLocationRef {
  locref_id : number;
  locref_name : string;
  locref_city : string;
  locref_country : string
}.

Record Datacenter := mkDatacenter {
  dc_id : number;
  dc_name : string;
  dc_description : string;
  dc_location : LocationRef
}.

Record ImageRef := mkImageRef {
  imgref_id : number;
  imgref_name : string;
  imgref_description : string;
  imgref_os_flavor : string;
  imgref_os_version : string
}.

Record HetznerServer := mkServer {
  server_id : number;
  server_name : string;
  server_status : ServerStatus;
  public_net : PublicNet;
  server_type : ServerTypeRef;
  datacenter : Datacenter;
  image : option ImageRef;
  server_labels : Obj.t string;
  server_created : string
}.

Record Price := mkPrice { net : string; gross : string }.

Record LocationPrice := mkLocationPrice {
  price_location : string;
  price_hourly : Price;
  price_monthly : Price
}.

Record HetznerServerType := mkServerType {
  st_id : number;
  st_name : string;
  st_description : string;
  st_cores : number;
  st_memory : number;
  st_disk : number;
  st_prices : list LocationPrice;
  st_architecture : string;
  st_cpu_type : string
}.

Inductive ImageType := System | Snapshot | Backup | App.

Definition ImageType_text (t : ImageType) : string :=
  match t with
  | System => "system"
  | Snapshot => "snapshot"
  | Backup => "backup"
  | App => "app"
  end.

Inductive ImageStatus := Available | Creating | Unavailable.

Definition ImageStatus_text (s : ImageStatus) : string :=
  match s with
  | Available => "available"
  | Creating => "creating"
  | Unavailable => "unavailable"
  end.

Record HetznerImage := mkImage {
  img_id : number;
  img_name : string;
  img_description : string;
  img_os_flavor : string;
  img_os_version : string;
  img_type : ImageType;
  img_status : ImageStatus;
  img_architecture : string
}.

Record HetznerLocation := mkLocation {
  loc_id : number;
  loc_name : string;
  loc_description : string;
  loc_country : string;
  loc_city : string;
  loc_latitude : number;
  loc_longitude : number;
  loc_network_zone : string
}.

Record HetznerSSHKey := mkSSHKey {
  key_id : number;
  key_name : string;
  key_fingerprint : string;
  key_public_key : string;
  key_labels : Obj.t string;
  key_created : string
}.

Inductive ActionStatus := ActionRunning | ActionSuccess | ActionError.

Definition ActionStatus_text (s : ActionStatus) : string :=
  match s with
  | ActionRunning => "running"
  | ActionSuccess => "success"
  | ActionError => "error"
  end.

Record HetznerAction := mkAction {
  action_id : number;
  action_command : string;
  action_status : ActionStatus;
  action_progress : number;
  action_started : string;
  action_finished : option string;
  action_error : option HetznerErrorBody
}.

(** The response wrappers. *)
Record ListServersResponse := mkListServers { servers : list HetznerServer }.
Record GetServerResponse := mkGetServer { server : HetznerServer }.
Record CreateServerResponse := mkCreateServer {
  created_server : HetznerServer;
  created_action : HetznerAction;
  root_password : option string
}.
Record ServerActionResponse := mkServerAction { action : HetznerAction }.
Record ListServerTypesResponse := mkListServerTypes {
  server_types : list HetznerServerType
}.
Record ListImagesResponse := mkListImages { images : list HetznerImage }.
Record ListLocationsResponse := mkListLocations {
  locations : list HetznerLocation
}.
Record ListSSHKeysResponse := mkListSSHKeys { ssh_keys : list HetznerSSHKey }.
Record GetSSHKeyResponse := mkGetSSHKey { ssh_key : HetznerSSHKey }.
Record CreateSSHKeyResponse := mkCreateSSHKey { new_ssh_key : HetznerSSHKey }.

(** The entities as the JSON values [JSON.stringify] receives: the declared
    members, in the declared order. *)
Module ToJSON.
Import JSON.

Definition ip_address (a : IpAddress) : value := Object [("ip", Str (ip a))].

Definition server (s : HetznerServer) : value :=
  Object
    [ ("id", Num (server_id s));
      ("name", Str (server_name s));
      ("status", Str (ServerStatus_text (server_status s)));
      ("public_net",
        Object [ ("ipv4", of_option ip_address (ipv4 (public_net s)));
                 ("ipv6", of_option ip_address (ipv6 (public_net s))) ]);
      ("server_type",
        let t := server_type s in
        Object [ ("id", Num (stref_id t)); ("name", Str (stref_name t));
                 ("description", Str (stref_description t));
                 ("cores", Num (stref_cores t));
                 ("memory", Num (stref_memory t));
                 ("disk", Num (stref_disk t)) ]);
      ("datacenter",
        let d := datacenter s in
        let l := dc_location d in
        Object [ ("id", Num (dc_id d)); ("name", Str (dc_name d));
                 ("description", Str (dc_description d));
                 ("location",
                   Object [ ("id", Num (locref_id l));
                            ("name", Str (locref_name l));
                            ("city", Str (locref_city l));
                            ("country", Str (locref_country l)) ]) ]);
      ("image",
        of_option
          (fun i =>
             Object [ ("id", Num (imgref_id i)); ("name", Str (imgref_name i));
                      ("description", Str (imgref_description i));
                      ("os_flavor", Str (imgref_os_flavor i));
                      ("os_version", Str (imgref_os_version i)) ])
          (image s));
      ("labels", of_record (server_labels s));
      ("created", Str (server_created s)) ].

Definition price (p : Price) : value :=
  Object [("net", Str (net p)); ("gross", Str (gross p))].

Definition server_type (t : HetznerServerType) : value :=
  Object
    [ ("id", Num (st_id t)); ("name", Str (st_name t));
      ("description", Str (st_description t));
      ("cores", Num (st_cores t)); ("memory", Num (st_memory t));
      ("disk", Num (st_disk t));
      ("prices",
        Arr (map (fun p =>
                    Object [ ("location", Str (price_location p));
                             ("price_hourly", price (price_hourly p));
                             ("price_monthly", price (price_monthly p)) ])
                 (st_prices t)));
      ("architecture", Str (st_architecture t));
      ("cpu_type", Str (st_cpu_type t)) ].

Definition image (i : HetznerImage) : value :=
  Object
    [ ("id", Num (img_id i)); ("name", Str (img_name i));
      ("description", Str (img_description i));
      ("os_flavor", Str (img_os_flavor i));
      ("os_version", Str (img_os_version i));
      ("type", Str (ImageType_text (img_type i)));
      ("status", Str (ImageStatus_text (img_status i)));
      ("architecture", Str (img_architecture i)) ].

Definition location (l : HetznerLocation) : value :=
  Object
    [ ("id", Num (loc_id l)); ("name", Str (loc_name l));
      ("description", Str (loc_description l));
      ("country", Str (loc_country l)); ("city", Str (loc_city l));
      ("latitude", Num (loc_latitude l));
      ("longitude", Num (loc_longitude l));
      ("network_zone", Str (loc_network_zone l)) ].

Definition ssh_key (k : HetznerSSHKey) : value :=
  Object
    [ ("id", Num (key_id k)); ("name", Str (key_name k));
      ("fingerprint", Str (key_fingerprint k));
      ("public_key", Str (key_public_key k));
      ("labels", of_record (key_labels k));
      ("created", Str (key_created k)) ].

End ToJSON.

(** ** [src/api.ts]: the transport client *)

Definition API_BASE_URL : string := "https://api.hetzner.cloud/v1".

(** [process.env]: the one variable the program reads. *)
Record Env := mkEnv { HETZNER_API_TOKEN : option string }.

(** What [axios.create] was given. *)
Record AxiosInstance := mkInstance {
  baseURL : string;
  timeout : number;
  headers : list (string * string)
}.

Inductive Method := GET | POST | PUT | DELETE.

Record AxiosRequestConfig := mkConfig {
  url : string;
  method : Method;
  data : option JSON.value;
  params : option (Obj.t string)
}.

(** The module state: the memoized client ([let apiClient = null]), and a
    ghost log of the calls of [client.request], oldest first. *)
Record World := mkWorld {
  apiClient : option AxiosInstance;
  requests : list (AxiosInstance * AxiosRequestConfig)
}.

Definition initial_world : World := mkWorld None [].

(** Computations that read and write the module state and either return or
    throw. *)
Definition M (A : Type) : Type := World -> (Thrown + A) * World.

Definition ret {A} (a : A) : M A := fun w => (inr a, w).

Definition bind {A B} (c : M A) (k : A -> M B) : M B :=
  fun w =>
    match c w with
    | (inr a, w') => k a w'
    | (inl e, w') => (inl e, w')
    end.

(** [try { c } catch (error) { handler(error) }]. *)
Definition try_catch {A} (c : M A) (handler : Thrown -> M A) : M A :=
  fun w =>
    match c w with
    | (inr a, w') => (inr a, w')
    | (inl e, w') => handler e w'
    end.

(** A pure step that may throw. *)
Definition lift {A} (r : Thrown + A) : M A := fun w => (r, w).

Notation "x <- c ;; k" := (bind c (fun x => k))
  (at level 61, c at next level, right associativity).

Definition getApiClient (env : Env) : M AxiosInstance :=
  fun w =>
    match apiClient w with
    | Some client => (inr client, w)
    | None =>
        match HETZNER_API_TOKEN env with
        | Some token =>
            if truthy token then
              let client :=
                mkInstance API_BASE_URL 30000
                  [ ("Authorization", "Bearer " ++ token);
                    ("Content-Type", "application/json");
                    ("Accept", "application/json") ] in
              (inr client, mkWorld (Some client) (requests w))
            else
              (inl (IsError "HETZNER_API_TOKEN environment variable is required"), w)
        | None =>
            (inl (IsError "HETZNER_API_TOKEN environment variable is required"), w)
        end
    end.

(** The network behind [client.request<T>]: what the call of a given client
    with a given configuration resolves to ([response.data]) or rejects
    with. *)
Definition Transport (T : Type) : Type :=
  AxiosInstance -> AxiosRequestConfig -> Thrown + T.

Definition client_request {T} (net : Transport T) (client : AxiosInstance)
    (config : AxiosRequestConfig) : M T :=
  fun w =>
    (net client config,
     mkWorld (apiClient w) (requests w ++ [(client, config)])).

Definition makeApiRequest {T} (env : Env) (net : Transport T)
    (endpoint : string) (method : Method) (data : option JSON.value)
    (params : option (Obj.t string)) : M T :=
  client <- getApiClient env ;;
  client_request net client (mkConfig endpoint method data params).

(** One [Transport] per response type the handlers ask for. *)
Record Provider := mkProvider {
  net_list_servers : Transport ListServersResponse;
  net_get_server : Transport GetServerResponse;
  net_create_server : Transport CreateServerResponse;
  net_server_action : Transport ServerActionResponse;
  net_list_server_types : Transport ListServerTypesResponse;
  net_list_images : Transport ListImagesResponse;
  net_list_locations : Transport ListLocationsResponse;
  net_list_ssh_keys : Transport ListSSHKeysResponse;
  net_get_ssh_key : Transport GetSSHKeyResponse;
  net_create_ssh_key : Transport CreateSSHKeyResponse;
  net_unknown : Transport unit
}.

(** ** [src/index.ts]: startup *)

Inductive Startup :=
  | Exit (code : number)
  | Serving.

(** [main]: without the credential the process logs how to get one and
    exits with code 1; otherwise it connects the server to its transport. *)
Definition main (env : Env) : Startup :=
  match HETZNER_API_TOKEN env with
  | Some token => if truthy token then Serving else Exit 1
  | None => Exit 1
  end.

(** ** Tool results *)

(** [{ content: [{ type: "text", text }], isError? }]; an absent [isError]
    is [false]. *)
Record CallToolResult := mkResult {
  content : list string;
  isError : bool
}.

Definition text_result (text : string) : CallToolResult :=
  mkResult [text] false.

Definition error_result (text : string) : CallToolResult :=
  mkResult [text] true.

(** The [catch] clause every handler ends with; [handleApiError] is called
    inside it, so what it throws leaves the handler. *)
Definition catch_clause (e : Thrown) : M CallToolResult :=
  text <- lift (handleApiError e) ;;
  ret (error_result text).

Definition lines_text (lines : list string) : string := join newline lines.

(** ** The tool handlers *)

(** The parsed inputs of the handlers (defaults applied). *)
Record ListServersParams := mkListServersParams {
  label_selector : option string;
  ls_response_format : ResponseFormat
}.

Record GetParams := mkGetParams {
  get_id : number;
  get_response_format : ResponseFormat
}.

Record IdParams := mkIdParams { id : number }.

(** An element of [ssh_keys]: a key name or a key id. *)
Inductive SSHKeyRef :=
  | KeyName (s : string)
  | KeyId (n : number).

Record CreateServerParams := mkCreateServerParams {
  cs_name : string;
  cs_server_type : string;
  cs_image : string;
  cs_location : option string;
  cs_ssh_keys : option (list SSHKeyRef);
  cs_labels : option (Obj.t string);
  cs_start_after_create : bool;
  cs_response_format : ResponseFormat
}.

Record FormatParams := mkFormatParams { response_format : ResponseFormat }.

Record ListImagesParams := mkListImagesParams {
  li_type : option ImageType;
  li_response_format : ResponseFormat
}.

Record CreateSSHKeyParams := mkCreateSSHKeyParams {
  ck_name : string;
  ck_public_key : string;
  ck_labels : option (Obj.t string);
  ck_response_format : ResponseFormat
}.

Definition SSHKeyRef_json (r : SSHKeyRef) : JSON.value :=
  match r with
  | KeyName s => JSON.Str s
  | KeyId n => JSON.Num n
  end.

(** [if (cond) requestBody[k] = v]. *)
Definition set_when {A} (o : option A) (keep : A -> bool) (k : string)
    (f : A -> JSON.value) (body : Obj.t JSON.value) : Obj.t JSON.value :=
  match o with
  | Some a => if keep a then Obj.set body k (f a) else body
  | None => body
  end.

Definition nonempty {A} (xs : list A) : bool :=
  match xs with
  | [] => false
  | _ :: _ => true
  end.

(** The [requestBody] of [hetzner_create_server]. *)
Definition create_server_body (p : CreateServerParams) : Obj.t JSON.value :=
  let body :=
    [ ("name", JSON.Str (cs_name p));
      ("server_type", JSON.Str (cs_server_type p));
      ("image", JSON.Str (cs_image p));
      ("start_after_create", JSON.Bool (cs_start_after_create p)) ] in
  let body := set_when (cs_location p) truthy "location" JSON.Str body in
  let body :=
    set_when (cs_ssh_keys p) nonempty "ssh_keys"
      (fun ks => JSON.Arr (map SSHKeyRef_json ks)) body in
  set_when (cs_labels p) (fun _ => true) "labels" JSON.of_record body.

(** The [requestBody] of [hetzner_create_ssh_key]. *)
Definition create_ssh_key_body (p : CreateSSHKeyParams) : Obj.t JSON.value :=
  let body :=
    [ ("name", JSON.Str (ck_name p));
      ("public_key", JSON.Str (ck_public_key p)) ] in
  set_when (ck_labels p) (fun _ => true) "labels" JSON.of_record body.

Definition body_json (body : Obj.t JSON.value) : JSON.value :=
  JSON.Object (Obj.entries body).

(** [Object.entries(labels).map(([k, v]) => `${k}=${v}`).join(", ")]. *)
Definition labels_text (labels : Obj.t string) : string :=
  join ", " (map (fun kv => fst kv ++ "=" ++ snd kv) (Obj.entries labels)).

(** The optional last line shared by [formatServer] and [formatSSHKey]. *)
Definition labels_lines (labels : Obj.t string) : list string :=
  if (0 <? Z.of_nat (List.length (Obj.keys labels)))
  then ["- **Labels**: " ++ labels_text labels]
  else [].

Definition ip_text (a : option IpAddress) : string :=
  or_else (option_map ip a) "N/A".

(** ** Input schemas

    The runtime parses the arguments of a call with the tool's [inputSchema]
    and calls the handler with the parsed value only when the parse
    succeeds.  Arguments are kept with the types the schemas name; a value
    of another type, or an unknown member, is not a value of these types. *)

Module Schema.

(** A character class of [/^[a-zA-Z0-9-]+$/]. *)
Definition name_char (c : ascii) : bool :=
  let n := nat_of_ascii c in
  ((97 <=? n)%nat && (n <=? 122)%nat)
  || ((65 <=? n)%nat && (n <=? 90)%nat)
  || ((48 <=? n)%nat && (n <=? 57)%nat)
  || (n =? 45)%nat.

Fixpoint all_chars (f : ascii -> bool) (s : string) : bool :=
  match s with
  | EmptyString => true
  | String c s' => f c && all_chars f s'
  end.

(** [.regex(/^[a-zA-Z0-9-]+$/)]: one character or more, each of the class;
    without the [m] flag, [$] matches at the end of the input only. *)
Definition name_regex (s : string) : bool :=
  truthy s && all_chars name_char s.

(** [.min(n)] and [.max(n)] on a string compare its [length]. *)
Definition min (n : nat) (s : string) : bool := (n <=? String_length s)%nat.
Definition max (n : nat) (s : string) : bool := (String_length s <=? n)%nat.

(** [z.string().min(1).max(255).regex(...)]: every check must pass. *)
Definition create_server_name (s : string) : bool :=
  min 1 s && max 255 s && name_regex s.

(** A number given as an argument: an integer, or a number that is not one
    (a fraction, an infinity), of which only the sign is kept. *)
Inductive NumberArg :=
  | IntegerArg (n : number)
  | NonIntegerArg (positive : bool).

(** [z.number().int().positive()]: the integer, when the argument is one
    and is above zero. *)
Definition positive_int (a : NumberArg) : option number :=
  match a with
  | IntegerArg n => if 0 <? n then Some n else None
  | NonIntegerArg _ => None
  end.

(** [z.record(z.string())]: the parser builds a new object from the keys of
    the input in enumeration order and leaves out a key named
    [__proto__]. *)
Definition record (o : Obj.t string) : Obj.t string :=
  filter (fun kv => negb (String.eqb (fst kv) "__proto__")) (Obj.entries o).

(** [ResponseFormatSchema]: [.default(ResponseFormat.MARKDOWN)]. *)
Definition format (f : option ResponseFormat) : ResponseFormat :=
  match f with
  | Some f' => f'
  | None => MARKDOWN
  end.

(** [z.boolean().default(true)]. *)
Definition boolean_default_true (b : option bool) : bool :=
  match b with
  | Some b' => b'
  | None => true
  end.

End Schema.

(** The arguments of [hetzner_create_server] before parsing. *)
Record CreateServerInput := mkCreateServerInput {
  in_name : string;
  in_server_type : string;
  in_image : string;
  in_location : option string;
  in_ssh_keys : option (list SSHKeyRef);
  in_labels : option (Obj.t string);
  in_start_after_create : option bool;
  in_response_format : option ResponseFormat
}.

(** A call as the agent sends it: the tool and its arguments. *)
Inductive ToolCall :=
  | call_list_servers (label_selector : option string)
      (response_format : option ResponseFormat)
  | call_get_server (id : Schema.NumberArg)
      (response_format : option ResponseFormat)
  | call_create_server (input : CreateServerInput)
  | call_delete_server (id : Schema.NumberArg)
  | call_power_on_server (id : Schema.NumberArg)
  | call_power_off_server (id : Schema.NumberArg)
  | call_reboot_server (id : Schema.NumberArg)
  | call_list_ssh_keys (response_format : option ResponseFormat)
  | call_get_ssh_key (id : Schema.NumberArg)
      (response_format : option ResponseFormat)
  | call_create_ssh_key (name public_key : string)
      (labels : option (Obj.t string))
      (response_format : option ResponseFormat)
  | call_delete_ssh_key (id : Schema.NumberArg)
  | call_list_server_types (response_format : option ResponseFormat)
  | call_list_images (type : option ImageType)
      (response_format : option ResponseFormat)
  | call_list_locations (response_format : option ResponseFormat).

(** A call whose arguments passed the schema: the handler and its parsed
    input. *)
Inductive Operation :=
  | ListServers (p : ListServersParams)
  | GetServer (p : GetParams)
  | CreateServer (p : CreateServerParams)
  | DeleteServer (p : IdParams)
  | PowerOnServer (p : IdParams)
  | PowerOffServer (p : IdParams)
  | RebootServer (p : IdParams)
  | ListSSHKeys (p : FormatParams)
  | GetSSHKey (p : GetParams)
  | CreateSSHKey (p : CreateSSHKeyParams)
  | DeleteSSHKey (p : IdParams)
  | ListServerTypes (p : FormatParams)
  | ListImages (p : ListImagesParams)
  | ListLocations (p : FormatParams).

Definition guard (ok : bool) (op : Operation) : option Operation :=
  if ok then Some op else None.

Definition parse_create_server (i : CreateServerInput) : option Operation :=
  guard
    (Schema.create_server_name (in_name i)
     && Schema.min 1 (in_server_type i)
     && Schema.min 1 (in_image i))
    (CreateServer
       (mkCreateServerParams (in_name i) (in_server_type i) (in_image i)
          (in_location i) (in_ssh_keys i)
          (option_map Schema.record (in_labels i))
          (Schema.boolean_default_true (in_start_after_create i))
          (Schema.format (in_response_format i)))).

(** The [inputSchema] of each tool applied to the arguments of a call. *)
Definition parse (c : ToolCall) : option Operation :=
  match c with
  | call_list_servers sel f =>
      Some (ListServers (mkListServersParams sel (Schema.format f)))
  | call_get_server a f =>
      option_map (fun n => GetServer (mkGetParams n (Schema.format f)))
        (Schema.positive_int a)
  | call_create_server i => parse_create_server i
  | call_delete_server a =>
      option_map (fun n => DeleteServer (mkIdParams n)) (Schema.positive_int a)
  | call_power_on_server a =>
      option_map (fun n => PowerOnServer (mkIdParams n)) (Schema.positive_int a)
  | call_power_off_server a =>
      option_map (fun n => PowerOffServer (mkIdParams n))
        (Schema.positive_int a)
  | call_reboot_server a =>
      option_map (fun n => RebootServer (mkIdParams n)) (Schema.positive_int a)
  | call_list_ssh_keys f => Some (ListSSHKeys (mkFormatParams (Schema.format f)))
  | call_get_ssh_key a f =>
      option_map (fun n => GetSSHKey (mkGetParams n (Schema.format f)))
        (Schema.positive_int a)
  | call_create_ssh_key name public_key labels f =>
      guard
        (Schema.min 1 name && Schema.max 255 name && Schema.min 1 public_key)
        (CreateSSHKey
           (mkCreateSSHKeyParams name public_key
              (option_map Schema.record labels) (Schema.format f)))
  | call_delete_ssh_key a =>
      option_map (fun n => DeleteSSHKey (mkIdParams n)) (Schema.positive_int a)
  | call_list_server_types f =>
      Some (ListServerTypes (mkFormatParams (Schema.format f)))
  | call_list_images t f =>
      Some (ListImages (mkListImagesParams t (Schema.format f)))
  | call_list_locations f =>
      Some (ListLocations (mkFormatParams (Schema.format f)))
  end.

(** How a call ends: the schema refused the arguments and no handler ran,
    the handler returned a result, or an exception left the handler. *)
Inductive Outcome :=
  | Refused
  | Returned (r : CallToolResult)
  | Escaped (e : Thrown).

Section Handlers.

(** [new Date(s).toLocaleString()], which depends on the host's locale and
    time zone. *)
Variable toLocaleString : string -> string.

Variable env : Env.
Variable provider : Provider.

(** *** [src/tools/servers.ts] *)

Definition formatServer_lines (s : HetznerServer) : list string :=
  [ "## " ++ server_name s ++ " (ID: " ++ Number_toString (server_id s) ++ ")";
    "- **Status**: " ++ ServerStatus_text (server_status s);
    "- **IPv4**: " ++ ip_text (ipv4 (public_net s));
    "- **IPv6**: " ++ ip_text (ipv6 (public_net s));
    "- **Type**: " ++ stref_name (server_type s)
      ++ " (" ++ Number_toString (stref_cores (server_type s)) ++ " cores, "
      ++ Number_toString (stref_memory (server_type s)) ++ "GB RAM, "
      ++ Number_toString (stref_disk (server_type s)) ++ "GB disk)";
    "- **Location**: " ++ locref_city (dc_location (datacenter s)) ++ ", "
      ++ locref_country (dc_location (datacenter s))
      ++ " (" ++ dc_name (datacenter s) ++ ")" ]
  ++ match image s with
     | Some i =>
         [ "- **Image**: " ++ imgref_name i ++ " (" ++ imgref_os_flavor i
             ++ " " ++ imgref_os_version i ++ ")" ]
     | None => []
     end
  ++ [ "- **Created**: " ++ toLocaleString (server_created s) ]
  ++ labels_lines (server_labels s).

Definition formatServer (s : HetznerServer) : string :=
  lines_text (formatServer_lines s).

Definition list_servers_query (p : ListServersParams) : Obj.t string :=
  match label_selector p with
  | Some sel => if truthy sel then Obj.set [] "label_selector" sel else []
  | None => []
  end.

(** The listing both list handlers build: a header, then one block and one
    empty line per entity. *)
Definition listing_lines {A} (header : list string) (format : A -> string)
    (xs : list A) : list string :=
  header ++ flat_map (fun x => [format x; EmptyString]) xs.

Definition hetzner_list_servers_try (p : ListServersParams) : M CallToolResult :=
  data <- makeApiRequest env (net_list_servers provider)
            "/servers" GET None (Some (list_servers_query p)) ;;
  let servers := servers data in
  match ls_response_format p with
  | JSON_FORMAT =>
      ret (text_result (JSON.stringify (JSON.Arr (map ToJSON.server servers))))
  | MARKDOWN =>
      match servers with
      | [] =>
          ret (text_result
                 "No servers found. Use `hetzner_create_server` to create one.")
      | _ :: _ =>
          ret (text_result
                 (lines_text
                    (listing_lines
                       [ "# Servers"; EmptyString;
                         "Found " ++ length_toString servers ++ " server(s):";
                         EmptyString ]
                       formatServer servers)))
      end
  end.

Definition hetzner_list_servers (p : ListServersParams) : M CallToolResult :=
  try_catch (hetzner_list_servers_try p) catch_clause.

Definition hetzner_get_server_try (p : GetParams) : M CallToolResult :=
  data <- makeApiRequest env (net_get_server provider)
            ("/servers/" ++ Number_toString (get_id p)) GET None None ;;
  let srv := server data in
  match get_response_format p with
  | JSON_FORMAT => ret (text_result (JSON.stringify (ToJSON.server srv)))
  | MARKDOWN =>
      ret (text_result
             (lines_text [ "# Server Details"; EmptyString; formatServer srv ]))
  end.

Definition hetzner_get_server (p : GetParams) : M CallToolResult :=
  try_catch (hetzner_get_server_try p) catch_clause.

(** The lines [hetzner_create_server] pushes after the server block,
    depending on [data.root_password]. *)
Definition password_lines (rootPassword : option string) : list string :=
  match rootPassword with
  | Some pw =>
      if truthy pw then
        [ "**Root Password**: `" ++ pw ++ "`";
          EmptyString;
          "⚠️ Save this password! It will not be shown again." ]
      else
        [ "SSH key authentication is configured. No root password was generated." ]
  | None =>
      [ "SSH key authentication is configured. No root password was generated." ]
  end.

Definition create_server_lines (srv : HetznerServer)
    (rootPassword : option string) : list string :=
  [ "# Server Created"; EmptyString; formatServer srv; EmptyString ]
  ++ password_lines rootPassword
  ++ [ EmptyString;
       "The server is being provisioned. Use `hetzner_get_server` to check its status." ].

Definition create_server_json (srv : HetznerServer)
    (rootPassword : option string) : JSON.value :=
  JSON.Object [ ("server", ToJSON.server srv);
                ("root_password", JSON.of_option JSON.Str rootPassword) ].

Definition hetzner_create_server_try (p : CreateServerParams) : M CallToolResult :=
  data <- makeApiRequest env (net_create_server provider)
            "/servers" POST (Some (body_json (create_server_body p))) None ;;
  let srv := created_server data in
  let rootPassword := root_password data in
  match cs_response_format p with
  | JSON_FORMAT =>
      ret (text_result (JSON.stringify (create_server_json srv rootPassword)))
  | MARKDOWN =>
      ret (text_result (lines_text (create_server_lines srv rootPassword)))
  end.

Definition hetzner_create_server (p : CreateServerParams) : M CallToolResult :=
  try_catch (hetzner_create_server_try p) catch_clause.

(** The four handlers that take an id and answer with an action status;
    they differ in the endpoint, the method and the verb of the message. *)
Definition server_action_try (endpoint : string) (method : Method)
    (verb : string) (p : IdParams) : M CallToolResult :=
  data <- makeApiRequest env (net_server_action provider)
            endpoint method None None ;;
  ret (text_result
         ("Server " ++ Number_toString (id p) ++ " is " ++ verb
            ++ ". Action status: "
            ++ ActionStatus_text (action_status (action data)))).

Definition server_action (endpoint : string) (method : Method)
    (verb : string) (p : IdParams) : M CallToolResult :=
  try_catch (server_action_try endpoint method verb p) catch_clause.

Definition hetzner_delete_server (p : IdParams) : M CallToolResult :=
  server_action ("/servers/" ++ Number_toString (id p)) DELETE
    "being deleted" p.

Definition hetzner_power_on_server (p : IdParams) : M CallToolResult :=
  server_action ("/servers/" ++ Number_toString (id p) ++ "/actions/poweron")
    POST "powering on" p.

Definition hetzner_power_off_server (p : IdParams) : M CallToolResult :=
  server_action ("/servers/" ++ Number_toString (id p) ++ "/actions/poweroff")
    POST "powering off" p.

Definition hetzner_reboot_server (p : IdParams) : M CallToolResult :=
  server_action ("/servers/" ++ Number_toString (id p) ++ "/actions/reboot")
    POST "rebooting" p.

(** *** [src/tools/ssh-keys.ts] *)

Definition formatSSHKey_lines (k : HetznerSSHKey) : list string :=
  [ "## " ++ key_name k ++ " (ID: " ++ Number_toString (key_id k) ++ ")";
    "- **Fingerprint**: " ++ key_fingerprint k;
    "- **Created**: " ++ toLocaleString (key_created k) ]
  ++ labels_lines (key_labels k).

Definition formatSSHKey (k : HetznerSSHKey) : string :=
  lines_text (formatSSHKey_lines k).

Definition hetzner_list_ssh_keys_try (p : FormatParams) : M CallToolResult :=
  data <- makeApiRequest env (net_list_ssh_keys provider)
            "/ssh_keys" GET None None ;;
  let keys := ssh_keys data in
  match response_format p with
  | JSON_FORMAT =>
      ret (text_result (JSON.stringify (JSON.Arr (map ToJSON.ssh_key keys))))
  | MARKDOWN =>
      match keys with
      | [] =>
          ret (text_result
                 "No SSH keys found. Use `hetzner_create_ssh_key` to add one.")
      | _ :: _ =>
          ret (text_result
                 (lines_text
                    (listing_lines
                       [ "# SSH Keys"; EmptyString;
                         "Found " ++ length_toString keys ++ " SSH key(s):";
                         EmptyString ]
                       formatSSHKey keys)))
      end
  end.

Definition hetzner_list_ssh_keys (p : FormatParams) : M CallToolResult :=
  try_catch (hetzner_list_ssh_keys_try p) catch_clause.

Definition hetzner_get_ssh_key_try (p : GetParams) : M CallToolResult :=
  data <- makeApiRequest env (net_get_ssh_key provider)
            ("/ssh_keys/" ++ Number_toString (get_id p)) GET None None ;;
  let key := ssh_key data in
  match get_response_format p with
  | JSON_FORMAT => ret (text_result (JSON.stringify (ToJSON.ssh_key key)))
  | MARKDOWN =>
      ret (text_result
             (lines_text
                [ "# SSH Key Details"; EmptyString; formatSSHKey key;
                  EmptyString; "**Public Key**:"; "```";
                  key_public_key key; "```" ]))
  end.

Definition hetzner_get_ssh_key (p : GetParams) : M CallToolResult :=
  try_catch (hetzner_get_ssh_key_try p) catch_clause.

Definition hetzner_create_ssh_key_try (p : CreateSSHKeyParams) : M CallToolResult :=
  data <- makeApiRequest env (net_create_ssh_key provider)
            "/ssh_keys" POST (Some (body_json (create_ssh_key_body p))) None ;;
  let key := new_ssh_key data in
  match ck_response_format p with
  | JSON_FORMAT => ret (text_result (JSON.stringify (ToJSON.ssh_key key)))
  | MARKDOWN =>
      ret (text_result
             (lines_text
                [ "# SSH Key Created"; EmptyString; formatSSHKey key;
                  EmptyString;
                  "You can now use this SSH key when creating servers by specifying its name or ID." ]))
  end.

Definition hetzner_create_ssh_key (p : CreateSSHKeyParams) : M CallToolResult :=
  try_catch (hetzner_create_ssh_key_try p) catch_clause.

Definition hetzner_delete_ssh_key_try (p : IdParams) : M CallToolResult :=
  _ <- makeApiRequest env (net_unknown provider)
         ("/ssh_keys/" ++ Number_toString (id p)) DELETE None None ;;
  ret (text_result
         ("SSH key " ++ Number_toString (id p) ++ " has been deleted.")).

Definition hetzner_delete_ssh_key (p : IdParams) : M CallToolResult :=
  try_catch (hetzner_delete_ssh_key_try p) catch_clause.

(** *** [src/tools/reference.ts] *)

Definition server_type_lines (st : HetznerServerType) : list string :=
  [ "## " ++ st_name st;
    "- **Description**: " ++ st_description st;
    "- **CPU**: " ++ Number_toString (st_cores st) ++ " cores ("
      ++ st_cpu_type st ++ ")";
    "- **Memory**: " ++ Number_toString (st_memory st) ++ " GB";
    "- **Disk**: " ++ Number_toString (st_disk st) ++ " GB";
    "- **Architecture**: " ++ st_architecture st ]
  ++ match st_prices st with
     | price :: _ =>
         [ "- **Price**: €" ++ gross (price_monthly price) ++ "/month (€"
             ++ gross (price_hourly price) ++ "/hour)" ]
     | [] => []
     end
  ++ [ EmptyString ].

Definition hetzner_list_server_types_try (p : FormatParams) : M CallToolResult :=
  data <- makeApiRequest env (net_list_server_types provider)
            "/server_types" GET None None ;;
  let serverTypes := server_types data in
  match response_format p with
  | JSON_FORMAT =>
      ret (text_result
             (JSON.stringify (JSON.Arr (map ToJSON.server_type serverTypes))))
  | MARKDOWN =>
      ret (text_result
             (lines_text
                ([ "# Available Server Types"; EmptyString ]
                 ++ flat_map server_type_lines serverTypes)))
  end.

Definition hetzner_list_server_types (p : FormatParams) : M CallToolResult :=
  try_catch (hetzner_list_server_types_try p) catch_clause.

Definition list_images_query (p : ListImagesParams) : Obj.t string :=
  match li_type p with
  | Some t => Obj.set [] "type" (ImageType_text t)
  | None => Obj.set [] "type" "system"
  end.

Definition is_available (img : HetznerImage) : bool :=
  match img_status img with
  | Available => true
  | _ => false
  end.

(** [img.os_flavor || "other"]. *)
Definition flavor_of (img : HetznerImage) : string :=
  or_else (Some (img_os_flavor img)) "other".

(** The loop that fills [byFlavor].  [byFlavor[flavor]] is read through the
    prototype chain: for a flavor named like a member of
    [Object.prototype] it is truthy without being an array, and the call
    of [push] on it throws a [TypeError]. *)
Fixpoint group_by_flavor (imgs : list HetznerImage)
    (byFlavor : Obj.t (list HetznerImage))
    : Thrown + Obj.t (list HetznerImage) :=
  match imgs with
  | [] => inr byFlavor
  | img :: rest =>
      let flavor := flavor_of img in
      match Obj.get_own byFlavor flavor with
      | Some group =>
          group_by_flavor rest (Obj.set byFlavor flavor (group ++ [img])%list)
      | None =>
          if Obj.inherited flavor
          then inl (IsError "byFlavor[flavor].push is not a function")
          else group_by_flavor rest (Obj.set byFlavor flavor ([] ++ [img])%list)
      end
  end.

Definition toUpperCase_char (c : ascii) : ascii :=
  let n := nat_of_ascii c in
  if (97 <=? n)%nat && (n <=? 122)%nat then ascii_of_nat (n - 32) else c.

(** [flavor.charAt(0).toUpperCase() + flavor.slice(1)], on a first
    character in the ASCII range. *)
Definition capitalize (flavor : string) : string :=
  match flavor with
  | EmptyString => EmptyString
  | String c rest => String (toUpperCase_char c) rest
  end.

Definition image_line (img : HetznerImage) : string :=
  "- **" ++ img_name img ++ "** - " ++ img_description img
    ++ " (" ++ img_architecture img ++ ")".

Definition flavor_lines (entry : string * list HetznerImage) : list string :=
  [ "## " ++ capitalize (fst entry) ]
  ++ map image_line (snd entry)
  ++ [ EmptyString ].

Definition hetzner_list_images_try (p : ListImagesParams) : M CallToolResult :=
  data <- makeApiRequest env (net_list_images provider)
            "/images" GET None (Some (list_images_query p)) ;;
  let images := filter is_available (images data) in
  match li_response_format p with
  | JSON_FORMAT =>
      ret (text_result (JSON.stringify (JSON.Arr (map ToJSON.image images))))
  | MARKDOWN =>
      byFlavor <- lift (group_by_flavor images []) ;;
      ret (text_result
             (lines_text
                ([ "# Available Images"; EmptyString ]
                 ++ flat_map flavor_lines (Obj.entries byFlavor))))
  end.

Definition hetzner_list_images (p : ListImagesParams) : M CallToolResult :=
  try_catch (hetzner_list_images_try p) catch_clause.

Definition location_lines (loc : HetznerLocation) : list string :=
  [ "## " ++ loc_name loc;
    "- **City**: " ++ loc_city loc ++ ", " ++ loc_country loc;
    "- **Description**: " ++ loc_description loc;
    "- **Network Zone**: " ++ loc_network_zone loc;
    EmptyString ].

Definition hetzner_list_locations_try (p : FormatParams) : M CallToolResult :=
  data <- makeApiRequest env (net_list_locations provider)
            "/locations" GET None None ;;
  let locations := locations data in
  match response_format p with
  | JSON_FORMAT =>
      ret (text_result
             (JSON.stringify (JSON.Arr (map ToJSON.location locations))))
  | MARKDOWN =>
      ret (text_result
             (lines_text
                ([ "# Available Locations"; EmptyString ]
                 ++ flat_map location_lines locations)))
  end.

Definition hetzner_list_locations (p : FormatParams) : M CallToolResult :=
  try_catch (hetzner_list_locations_try p) catch_clause.

(** *** Dispatch *)

Definition endpoint_of (op : Operation) : string :=
  match op with
  | ListServers _ | CreateServer _ => "/servers"
  | GetServer p => "/servers/" ++ Number_toString (get_id p)
  | DeleteServer p => "/servers/" ++ Number_toString (id p)
  | PowerOnServer p =>
      "/servers/" ++ Number_toString (id p) ++ "/actions/poweron"
  | PowerOffServer p =>
      "/servers/" ++ Number_toString (id p) ++ "/actions/poweroff"
  | RebootServer p =>
      "/servers/" ++ Number_toString (id p) ++ "/actions/reboot"
  | ListSSHKeys _ | CreateSSHKey _ => "/ssh_keys"
  | GetSSHKey p => "/ssh_keys/" ++ Number_toString (get_id p)
  | DeleteSSHKey p => "/ssh_keys/" ++ Number_toString (id p)
  | ListServerTypes _ => "/server_types"
  | ListImages _ => "/images"
  | ListLocations _ => "/locations"
  end.

(** The one request the handler of an operation passes to
    [makeApiRequest]. *)
Definition request_of (op : Operation) : AxiosRequestConfig :=
  match op with
  | ListServers p =>
      mkConfig (endpoint_of op) GET None (Some (list_servers_query p))
  | CreateServer p =>
      mkConfig (endpoint_of op) POST
        (Some (body_json (create_server_body p))) None
  | CreateSSHKey p =>
      mkConfig (endpoint_of op) POST
        (Some (body_json (create_ssh_key_body p))) None
  | ListImages p =>
      mkConfig (endpoint_of op) GET None (Some (list_images_query p))
  | DeleteServer _ | DeleteSSHKey _ =>
      mkConfig (endpoint_of op) DELETE None None
  | PowerOnServer _ | PowerOffServer _ | RebootServer _ =>
      mkConfig (endpoint_of op) POST None None
  | GetServer _ | ListSSHKeys _ | GetSSHKey _ | ListServerTypes _
  | ListLocations _ =>
      mkConfig (endpoint_of op) GET None None
  end.

Definition rejection {T} (r : Thrown + T) : option Thrown :=
  match r with
  | inl e => Some e
  | inr _ => None
  end.

(** Whether the network rejects the request of an operation made by a
    client, and with what. *)
Definition network_error (op : Operation) (client : AxiosInstance)
    : option Thrown :=
  let config := request_of op in
  match op with
  | ListServers _ => rejection (net_list_servers provider client config)
  | GetServer _ => rejection (net_get_server provider client config)
  | CreateServer _ => rejection (net_create_server provider client config)
  | DeleteServer _ | PowerOnServer _ | PowerOffServer _ | RebootServer _ =>
      rejection (net_server_action provider client config)
  | ListSSHKeys _ => rejection (net_list_ssh_keys provider client config)
  | GetSSHKey _ => rejection (net_get_ssh_key provider client config)
  | CreateSSHKey _ => rejection (net_create_ssh_key provider client config)
  | DeleteSSHKey _ => rejection (net_unknown provider client config)
  | ListServerTypes _ =>
      rejection (net_list_server_types provider client config)
  | ListImages _ => rejection (net_list_images provider client config)
  | ListLocations _ => rejection (net_list_locations provider client config)
  end.

(** The [try] block of the handler of an operation. *)
Definition try_block (op : Operation) : M CallToolResult :=
  match op with
  | ListServers p => hetzner_list_servers_try p
  | GetServer p => hetzner_get_server_try p
  | CreateServer p => hetzner_create_server_try p
  | DeleteServer p =>
      server_action_try ("/servers/" ++ Number_toString (id p)) DELETE
        "being deleted" p
  | PowerOnServer p =>
      server_action_try
        ("/servers/" ++ Number_toString (id p) ++ "/actions/poweron")
        POST "powering on" p
  | PowerOffServer p =>
      server_action_try
        ("/servers/" ++ Number_toString (id p) ++ "/actions/poweroff")
        POST "powering off" p
  | RebootServer p =>
      server_action_try
        ("/servers/" ++ Number_toString (id p) ++ "/actions/reboot")
        POST "rebooting" p
  | ListSSHKeys p => hetzner_list_ssh_keys_try p
  | GetSSHKey p => hetzner_get_ssh_key_try p
  | CreateSSHKey p => hetzner_create_ssh_key_try p
  | DeleteSSHKey p => hetzner_delete_ssh_key_try p
  | ListServerTypes p => hetzner_list_server_types_try p
  | ListImages p => hetzner_list_images_try p
  | ListLocations p => hetzner_list_locations_try p
  end.

Definition handler (op : Operation) : M CallToolResult :=
  match op with
  | ListServers p => hetzner_list_servers p
  | GetServer p => hetzner_get_server p
  | CreateServer p => hetzner_create_server p
  | DeleteServer p => hetzner_delete_server p
  | PowerOnServer p => hetzner_power_on_server p
  | PowerOffServer p => hetzner_power_off_server p
  | RebootServer p => hetzner_reboot_server p
  | ListSSHKeys p => hetzner_list_ssh_keys p
  | GetSSHKey p => hetzner_get_ssh_key p
  | CreateSSHKey p => hetzner_create_ssh_key p
  | DeleteSSHKey p => hetzner_delete_ssh_key p
  | ListServerTypes p => hetzner_list_server_types p
  | ListImages p => hetzner_list_images p
  | ListLocations p => hetzner_list_locations p
  end.

Definition run (m : M CallToolResult) (w : World) : Outcome * World :=
  match m w with
  | (inr r, w') => (Returned r, w')
  | (inl e, w') => (Escaped e, w')
  end.

(** A call as the runtime serves it: the MCP server parses the arguments
    with the [inputSchema] the tool was registered with, and calls the
    handler, with the parsed input, only when they pass. *)
Definition call_tool (c : ToolCall) (w : World) : Outcome * World :=
  match parse c with
  | Some op => run (handler op) w
  | None => (Refused, w)
  end.

End Handlers.

(** ** The message categories of the error normalizer *)

(** The rows of the table of status codes and failures. *)
Inductive Category :=
  | AuthFailed
  | PermissionDenied
  | ResourceNotFound
  | ConflictState
  | InvalidRequest
  | RateLimited
  | UpstreamUnavailable
  | OtherHTTP
  | TimedOut
  | CouldNotConnect
  | Fallback.

Definition status_table : list (number * Category) :=
  [ (401, AuthFailed); (403, PermissionDenied); (404, ResourceNotFound);
    (409, ConflictState); (422, InvalidRequest); (429, RateLimited);
    (503, UpstreamUnavailable) ].

Fixpoint lookup_status (table : list (number * Category)) (s : number)
    : Category :=
  match table with
  | [] => OtherHTTP
  | (s', c) :: rest => if s =? s' then c else lookup_status rest s
  end.

Definition code_table : list (string * Category) :=
  [ ("ECONNABORTED", TimedOut); ("ENOTFOUND", CouldNotConnect) ].

Fixpoint lookup_code (table : list (string * Category)) (code : string)
    : Category :=
  match table with
  | [] => Fallback
  | (code', c) :: rest =>
      if String.eqb code code' then c else lookup_code rest code
  end.

(** The row a thrown value falls under: an answer of the provider by its
    status, a failure without an answer by its code, anything else under the
    last row. *)
Definition table_category (e : Thrown) : Category :=
  match e with
  | IsAxiosError a =>
      match ax_response a with
      | Some r => lookup_status status_table (resp_status r)
      | None =>
          match ax_code a with
          | Some code => lookup_code code_table code
          | None => Fallback
          end
      end
  | IsError _ => Fallback
  | IsOther _ => Fallback
  end.

(** How a message of each row reads: a fixed text, or a fixed opening
    followed by a detail.  The last row only asks for the common opening. *)
Definition category_form (c : Category) (m : string) : bool :=
  match c with
  | AuthFailed =>
      String.eqb m "Error: Authentication failed. Please check your HETZNER_API_TOKEN."
  | PermissionDenied => starts_with "Error: Permission denied. " m
  | ResourceNotFound => starts_with "Error: Resource not found. " m
  | ConflictState => starts_with "Error: Conflict. " m
  | InvalidRequest => starts_with "Error: Invalid request. " m
  | RateLimited =>
      String.eqb m "Error: Rate limit exceeded. Please wait a moment before making more requests."
  | UpstreamUnavailable =>
      String.eqb m "Error: Hetzner API is temporarily unavailable. Please try again later."
  | OtherHTTP => starts_with "Error: API request failed (" m
  | TimedOut => String.eqb m "Error: Request timed out. Please try again."
  | CouldNotConnect =>
      String.eqb m "Error: Could not connect to Hetzner API. Please check your internet connection."
  | Fallback => starts_with "Error: " m
  end.

(** What a value prints as, or the message of the [TypeError] its
    conversion throws. *)
Definition printed (v : Value) : string + string :=
  match v with
  | VString s => inr s
  | VFalsy text => inr text
  | VPrintable text => inr text
  | VUnprintable typeError => inl typeError
  end.

(** A value that counts as given: any value but the empty string and the
    other falsy values. *)
Definition given (v : Value) : bool :=
  match v with
  | VString EmptyString => false
  | VString (String _ _) => true
  | VFalsy _ => false
  | VPrintable _ => true
  | VUnprintable _ => true
  end.

(** The detail of the provider, when the answer carries one: the [message]
    of the [error] member of the body. *)
Definition provider_detail (e : Thrown) : option Value :=
  match e with
  | IsAxiosError
      (mkAxiosError _ _
         (Some (mkResponse _ (Some (mkApiError (Some (mkErrorBody _ d))))))) =>
      if given d then Some d else None
  | _ => None
  end.

(** The detail a row shows: that of the provider, or else a default. *)
Definition detail_or (e : Thrown) (default : Value) : Value :=
  match provider_detail e with
  | Some d => d
  | None => default
  end.

(** The message of the error itself. *)
Definition own_message (e : Thrown) : Value :=
  match e with
  | IsAxiosError (mkAxiosError message _ _) => message
  | IsError message => message
  | IsOther _ => VString EmptyString
  end.

Definition status_of (e : Thrown) : number :=
  match e with
  | IsAxiosError (mkAxiosError _ _ (Some (mkResponse status _))) => status
  | _ => 0
  end.

(** An opening followed by what a value prints as. *)
Definition followed_by (opening : string) (v : Value) : string + string :=
  match printed v with
  | inr text => inr (opening ++ text)
  | inl typeError => inl typeError
  end.

(** The message the table gives a thrown value, row by row; when the
    value a row has to print cannot be converted to a string, the message
    of the [TypeError] of the conversion instead (on the left). *)
Definition table_message (e : Thrown) : string + string :=
  match table_category e with
  | AuthFailed =>
      inr "Error: Authentication failed. Please check your HETZNER_API_TOKEN."
  | PermissionDenied =>
      followed_by "Error: Permission denied. "
        (detail_or e "You don't have access to this resource.")
  | ResourceNotFound =>
      followed_by "Error: Resource not found. "
        (detail_or e "Please check the ID is correct.")
  | ConflictState =>
      followed_by "Error: Conflict. "
        (detail_or e "The resource is in a conflicting state.")
  | InvalidRequest =>
      followed_by "Error: Invalid request. "
        (detail_or e "Please check your parameters.")
  | RateLimited =>
      inr "Error: Rate limit exceeded. Please wait a moment before making more requests."
  | UpstreamUnavailable =>
      inr "Error: Hetzner API is temporarily unavailable. Please try again later."
  | OtherHTTP =>
      followed_by
        ("Error: API request failed (" ++ Number_toString (status_of e) ++ "). ")
        (detail_or e (own_message e))
  | TimedOut => inr "Error: Request timed out. Please try again."
  | CouldNotConnect =>
      inr "Error: Could not connect to Hetzner API. Please check your internet connection."
  | Fallback =>
      match e with
      | IsOther _ => inr "Error: An unexpected error occurred."
      | _ => followed_by "Error: " (own_message e)
      end
  end.

Definition is_string (v : Value) : bool :=
  match v with
  | VString _ => true
  | _ => false
  end.

(** A thrown value as the types declare it: the message of an [Error] is a
    string, and so is the [message] of the error body of an answer. *)
Definition declared_error (e : Thrown) : bool :=
  match e with
  | IsAxiosError (mkAxiosError message _ response) =>
      is_string message
      && match response with
         | Some (mkResponse _ (Some (mkApiError (Some (mkErrorBody _ d))))) =>
             is_string d
         | _ => true
         end
  | IsError message => is_string message
  | IsOther _ => true
  end.

(** What a call of [handleApiError] must give for a thrown value, by the
    table: the message returned, or the [TypeError] thrown. *)
Definition table_outcome (e : Thrown) : Thrown + string :=
  match table_message e with
  | inr m => inr m
  | inl typeError => inl (IsError (VString typeError))
  end.



(** ** Statements about outcomes *)

(** The outcome of a call is an exception that left the handler. *)
Definition escapes (o : Outcome * World) : Prop :=
  exists (e : Thrown) (w : World), o = (Escaped e, w).

(** A result carries one text. *)
Definition one_text (r : CallToolResult) : Prop :=
  exists text : string, content r = [text].

(** The client [axios.create] builds for a credential. *)
Definition client_for (token : string) : AxiosInstance :=
  mkInstance "https://api.hetzner.cloud/v1" 30000
    [ ("Authorization", "Bearer " ++ token);
      ("Content-Type", "application/json");
      ("Accept", "application/json") ].

Definition missing_token_message : string :=
  "Error: HETZNER_API_TOKEN environment variable is required".

(** ** Statements about inputs and outputs *)

(** The characters a server name may consist of, as the description of the
    tool lists them: letters, digits, and hyphens. *)
Definition letters_digits_hyphen : string :=
  "abcdefghijklmnopqrstuvwxyzABCDEFGHIJKLMNOPQRSTUVWXYZ0123456789-".

Definition allowed_char (c : ascii) : bool :=
  existsb (Ascii.eqb c) (list_ascii_of_string letters_digits_hyphen).

(** A name that is empty, longer than 255 characters, or holds a character
    that is not allowed. *)
Definition invalid_server_name (s : string) : Prop :=
  s = EmptyString
  \/ (255 < String.length s)%nat
  \/ (exists c : ascii,
        In c (list_ascii_of_string s) /\ allowed_char c = false).

(** The parsed input of [hetzner_create_server] with another [ssh_keys]. *)
Definition with_ssh_keys (p : CreateServerParams)
    (ks : option (list SSHKeyRef)) : CreateServerParams :=
  mkCreateServerParams (cs_name p) (cs_server_type p) (cs_image p)
    (cs_location p) ks (cs_labels p) (cs_start_after_create p)
    (cs_response_format p).

(** No SSH key was supplied: the parameter is absent, or an empty list. *)
Definition no_ssh_keys (p : CreateServerParams) : bool :=
  match cs_ssh_keys p with
  | Some (_ :: _) => false
  | _ => true
  end.

(** Among the lines of the text of a created server: the line that shows a
    root password, the guidance that follows it, and the line that reports
    that none was generated. *)
Definition shows_password (lines : list string) : bool :=
  existsb (starts_with "**Root Password**: `") lines.

Definition shows_guidance (lines : list string) : bool :=
  existsb (String.eqb "⚠️ Save this password! It will not be shown again.")
    lines.

Definition reports_no_password (lines : list string) : bool :=
  existsb
    (String.eqb
       "SSH key authentication is configured. No root password was generated.")
    lines.

(** The report follows the supplied SSH keys: a password is shown, and its
    absence not reported, exactly when no key was supplied. *)
Definition report_follows_ssh_keys (p : CreateServerParams)
    (lines : list string) : Prop :=
  if no_ssh_keys p
  then shows_password lines = true /\ reports_no_password lines = false
  else shows_password lines = false /\ reports_no_password lines = true.

(** [data.root_password] is a non-empty string. *)
Definition password_given (rootPassword : option string) : bool :=
  match rootPassword with
  | Some pw => truthy pw
  | None => false
  end.

(** A line of a block that is not its labels line. *)
Definition not_labels_line (l : string) : Prop :=
  starts_with "- **Labels**" l = false.

(** A line of the image listing that stands for an image. *)
Definition is_image_line (l : string) : bool := starts_with "- **" l.

(** ** Concrete hosts and providers for the examples *)

Module Example.

(** A host whose locale renders a timestamp as it is written. *)
Definition plain_locale (s : string) : string := s.

Definition no_token : Env := mkEnv None.
Definition with_token : Env := mkEnv (Some "secret").

Definition unreachable : Thrown :=
  IsAxiosError
    (mkAxiosError "getaddrinfo ENOTFOUND api.hetzner.cloud" (Some "ENOTFOUND")
       None).

(** An answer with status 403 whose detail is an object that cannot be
    converted to a string (its [toString] is not a function). *)
Definition odd_detail : Thrown :=
  IsAxiosError
    (mkAxiosError (VString "Request failed with status code 403")
       (Some "ERR_BAD_REQUEST")
       (Some
          (mkResponse 403
             (Some
                (mkApiError
                   (Some
                      (mkErrorBody "forbidden"
                         (VUnprintable
                            "Cannot convert object to primitive value")))))))).

(** A network that rejects every request with a given value. *)
Definition rejects_with (e : Thrown) : Provider :=
  mkProvider
    (fun _ _ => inl e) (fun _ _ => inl e) (fun _ _ => inl e)
    (fun _ _ => inl e) (fun _ _ => inl e) (fun _ _ => inl e)
    (fun _ _ => inl e) (fun _ _ => inl e) (fun _ _ => inl e)
    (fun _ _ => inl e) (fun _ _ => inl e).

(** A network that resolves no host: every request is rejected. *)
Definition offline : Provider :=
  mkProvider
    (fun _ _ => inl unreachable) (fun _ _ => inl unreachable)
    (fun _ _ => inl unreachable) (fun _ _ => inl unreachable)
    (fun _ _ => inl unreachable) (fun _ _ => inl unreachable)
    (fun _ _ => inl unreachable) (fun _ _ => inl unreachable)
    (fun _ _ => inl unreachable) (fun _ _ => inl unreachable)
    (fun _ _ => inl unreachable).

(** A project without servers and SSH keys. *)
Definition empty_project : Provider :=
  mkProvider
    (fun _ _ => inr (mkListServers [])) (fun _ _ => inl unreachable)
    (fun _ _ => inl unreachable) (fun _ _ => inl unreachable)
    (fun _ _ => inl unreachable) (fun _ _ => inl unreachable)
    (fun _ _ => inl unreachable) (fun _ _ => inr (mkListSSHKeys []))
    (fun _ _ => inl unreachable) (fun _ _ => inl unreachable)
    (fun _ _ => inl unreachable).

Definition my_app : HetznerServer :=
  mkServer 42 "my-app" Initializing
    (mkPublicNet (Some (mkIp "203.0.113.7")) None)
    (mkServerTypeRef 22 "cx22" "CX22" 2 4 40)
    (mkDatacenter 4 "fsn1-dc14" "Falkenstein 1 DC14"
       (mkLocationRef 1 "fsn1" "Falkenstein" "DE"))
    (Some (mkImageRef 161547269 "ubuntu-24.04" "Ubuntu 24.04" "ubuntu" "24.04"))
    [] "2026-01-01T00:00:00+00:00".

Definition creating : HetznerAction :=
  mkAction 7 "create_server" ActionRunning 0 "2026-01-01T00:00:00+00:00"
    None None.

(** A provider that creates the server and answers with a given
    [root_password]. *)
Definition creates_with (rootPassword : option string) : Provider :=
  mkProvider
    (fun _ _ => inl unreachable) (fun _ _ => inl unreachable)
    (fun _ _ => inr (mkCreateServer my_app creating rootPassword))
    (fun _ _ => inl unreachable)
    (fun _ _ => inl unreachable) (fun _ _ => inl unreachable)
    (fun _ _ => inl unreachable) (fun _ _ => inl unreachable)
    (fun _ _ => inl unreachable) (fun _ _ => inl unreachable)
    (fun _ _ => inl unreachable).

(** The input [{name: "my-app", server_type: "cx22", image: "ubuntu-24.04"}]
    after parsing, and the same with one SSH key. *)
Definition my_app_params : CreateServerParams :=
  mkCreateServerParams "my-app" "cx22" "ubuntu-24.04" None None None true
    MARKDOWN.

Definition my_app_with_key : CreateServerParams :=
  with_ssh_keys my_app_params (Some [KeyName "my-laptop"]).

Definition ubuntu : HetznerImage :=
  mkImage 161547269 "ubuntu-24.04" "Ubuntu 24.04" "ubuntu" "24.04" System
    Available "x86".

Definition debian_creating : HetznerImage :=
  mkImage 2 "debian-13" "Debian 13" "debian" "13" System Creating "x86".

(** A provider whose catalog holds one available and one unfinished image. *)
Definition two_images : Provider :=
  mkProvider
    (fun _ _ => inl unreachable) (fun _ _ => inl unreachable)
    (fun _ _ => inl unreachable) (fun _ _ => inl unreachable)
    (fun _ _ => inl unreachable)
    (fun _ _ => inr (mkListImages [ubuntu; debian_creating]))
    (fun _ _ => inl unreachable) (fun _ _ => inl unreachable)
    (fun _ _ => inl unreachable) (fun _ _ => inl unreachable)
    (fun _ _ => inl unreachable).

End Example.

(** ** Further statements *)

(** The calls of the tools whose arguments carry an [id]. *)
Definition id_calls (a : Schema.NumberArg) (f : option ResponseFormat)
    : list ToolCall :=
  [ call_get_server a f; call_delete_server a; call_power_on_server a;
    call_power_off_server a; call_reboot_server a; call_get_ssh_key a f;
    call_delete_ssh_key a ].

(** The argument is an integer above zero. *)
Definition positive_integer (a : Schema.NumberArg) : Prop :=
  exists n : number, a = Schema.IntegerArg n /\ 0 < n.

(** The parsed input of [hetzner_create_server] with another [location],
    and with other [labels]. *)
Definition with_location (p : CreateServerParams) (l : option string)
    : CreateServerParams :=
  mkCreateServerParams (cs_name p) (cs_server_type p) (cs_image p)
    l (cs_ssh_keys p) (cs_labels p) (cs_start_after_create p)
    (cs_response_format p).

Definition with_labels (p : CreateServerParams) (l : option (Obj.t string))
    : CreateServerParams :=
  mkCreateServerParams (cs_name p) (cs_server_type p) (cs_image p)
    (cs_location p) (cs_ssh_keys p) l (cs_start_after_create p)
    (cs_response_format p).

(** An image is listed under a flavor. *)
Definition has_flavor (flavor : string) (img : HetznerImage) : bool :=
  String.eqb (flavor_of img) flavor.

(** A line of a block of a server type that shows a price. *)
Definition is_price_line (l : string) : bool := starts_with "- **Price**" l.

Definition count_if (b : bool) : nat := if b then 1%nat else 0%nat.

Definition has_image (s : HetznerServer) : bool :=
  match image s with
  | Some _ => true
  | None => false
  end.

(** The images of a list that are listed under a flavor, in the order of
    the list; [None] when there is none. *)
Definition group_of (flavor : string) (imgs : list HetznerImage)
    : option (list HetznerImage) :=
  match filter (has_flavor flavor) imgs with
  | [] => None
  | img :: rest => Some (img :: rest)
  end.

Module MoreExamples.

Definition odd_flavor : HetznerImage :=
  mkImage 9 "custom" "Custom image" "constructor" "1" Snapshot Available "x86".

(** A provider whose catalog holds an image with the flavor
    [constructor]. *)
Definition odd_catalog : Provider :=
  mkProvider
    (fun _ _ => inl Example.unreachable) (fun _ _ => inl Example.unreachable)
    (fun _ _ => inl Example.unreachable) (fun _ _ => inl Example.unreachable)
    (fun _ _ => inl Example.unreachable)
    (fun _ _ => inr (mkListImages [Example.ubuntu; odd_flavor]))
    (fun _ _ => inl Example.unreachable) (fun _ _ => inl Example.unreachable)
    (fun _ _ => inl Example.unreachable) (fun _ _ => inl Example.unreachable)
    (fun _ _ => inl Example.unreachable).

Definition odd_system_image : HetznerImage :=
  mkImage 10 "constructor-os" "Constructor OS" "constructor" "1" System
    Available "x86".

(** A provider whose catalog of system images holds an image with the
    flavor [constructor]. *)
Definition odd_system_catalog : Provider :=
  mkProvider
    (fun _ _ => inl Example.unreachable) (fun _ _ => inl Example.unreachable)
    (fun _ _ => inl Example.unreachable) (fun _ _ => inl Example.unreachable)
    (fun _ _ => inl Example.unreachable)
    (fun _ _ => inr (mkListImages [Example.ubuntu; odd_system_image]))
    (fun _ _ => inl Example.unreachable) (fun _ _ => inl Example.unreachable)
    (fun _ _ => inl Example.unreachable) (fun _ _ => inl Example.unreachable)
    (fun _ _ => inl Example.unreachable).

Definition debian : HetznerImage :=
  mkImage 3 "debian-12" "Debian 12" "debian" "12" System Available "x86".

Definition ubuntu_22 : HetznerImage :=
  mkImage 4 "ubuntu-22.04" "Ubuntu 22.04" "ubuntu" "22.04" System Available
    "x86".

Definition cx22 : HetznerServerType :=
  mkServerType 22 "cx22" "CX22" 2 4 40
    [ mkLocationPrice "fsn1" (mkPrice "0.0060" "0.0071")
        (mkPrice "3.7900" "4.5101");
      mkLocationPrice "hel1" (mkPrice "0.0070" "0.0083")
        (mkPrice "4.1900" "4.9861") ]
    "x86" "shared".

Definition fsn1 : HetznerLocation :=
  mkLocation 1 "fsn1" "Falkenstein DC Park 1" "DE" "Falkenstein" 50 12
    "eu-central".

Definition failed_action : HetznerAction :=
  mkAction 8 "start_server" ActionError 100 "2026-01-01T00:00:00+00:00"
    (Some "2026-01-01T00:00:05+00:00")
    (Some (mkErrorBody "action_failed" "Action failed")).

(** A provider with one server type and one location, whose actions
    fail. *)
Definition small_catalog : Provider :=
  mkProvider
    (fun _ _ => inl Example.unreachable) (fun _ _ => inl Example.unreachable)
    (fun _ _ => inl Example.unreachable)
    (fun _ _ => inr (mkServerAction failed_action))
    (fun _ _ => inr (mkListServerTypes [cx22]))
    (fun _ _ => inl Example.unreachable)
    (fun _ _ => inr (mkListLocations [fsn1]))
    (fun _ _ => inl Example.unreachable)
    (fun _ _ => inl Example.unreachable) (fun _ _ => inl Example.unreachable)
    (fun _ _ => inl Example.unreachable).

Definition laptop_key : HetznerSSHKey :=
  mkSSHKey 12345 "my-laptop" "b7:2f:30:a0:2f:6c:58:6c:21:04:58:61:ba:06:3b:2f"
    "ssh-ed25519 AAAAC3NzaC1lZDI1NTE5AAAAIGtest me@laptop"
    [("env", "prod")] "2026-01-01T00:00:00+00:00".

(** A project with one server and one SSH key. *)
Definition small_project : Provider :=
  mkProvider
    (fun _ _ => inr (mkListServers [Example.my_app]))
    (fun _ _ => inl Example.unreachable)
    (fun _ _ => inl Example.unreachable) (fun _ _ => inl Example.unreachable)
    (fun _ _ => inl Example.unreachable) (fun _ _ => inl Example.unreachable)
    (fun _ _ => inl Example.unreachable)
    (fun _ _ => inr (mkListSSHKeys [laptop_key]))
    (fun _ _ => inl Example.unreachable) (fun _ _ => inl Example.unreachable)
    (fun _ _ => inl Example.unreachable).

End MoreExamples.

(** The four operations that answer with an action, each with the verb of
    its message. *)
Definition action_operations (p : IdParams) : list (Operation * string) :=
  [ (DeleteServer p, "being deleted"); (PowerOnServer p, "powering on");
    (PowerOffServer p, "powering off"); (RebootServer p, "rebooting") ].

(** A server type with other [prices]. *)
Definition with_prices (st : HetznerServerType) (ps : list LocationPrice)
    : HetznerServerType :=
  mkServerType (st_id st) (st_name st) (st_description st) (st_cores st)
    (st_memory st) (st_disk st) ps (st_architecture st) (st_cpu_type st).

(** The line of a block at a position, counted from 0. *)
Definition line_at (n : nat) (lines : list string) : string :=
  nth n lines EmptyString.

(** A line of a listing that opens the block of an entry. *)
Definition is_heading (l : string) : bool := starts_with "## " l.

(** The price line of a server type: the gross prices of the first entry
    of [prices], when there is one. *)
Definition first_price_line (st : HetznerServerType) : list string :=
  match st_prices st with
  | price :: _ =>
      [ "- **Price**: €" ++ gross (price_monthly price) ++ "/month (€"
          ++ gross (price_hourly price) ++ "/hour)" ]
  | [] => []
  end.

(** * Properties *)

(** ** The error normalizer *)

Ltac other_rows :=
  let c := fresh "c" in
  let Hc := fresh "Hc" in
  intros _ c Hc; destruct c; simpl in Hc; try discriminate Hc; auto.

Lemma append_assoc (a b c : string) : (a ++ b) ++ c = a ++ (b ++ c).
Proof. induction a as [| x a IH]; simpl; [ reflexivity | now rewrite IH ]. Qed.

Lemma append_empty_r (a : string) : a ++ EmptyString = a.
Proof. induction a as [| x a IH]; simpl; [ reflexivity | now rewrite IH ]. Qed.

Lemma template_followed_by (opening : string) (v : Value) :
  template opening v
  = match followed_by opening v with
    | inr m => inr m
    | inl typeError => inl (IsError (VString typeError))
    end.
Proof. destruct v; reflexivity. Qed.

Lemma followed_by_inr (opening : string) (v : Value) (m : string) :
  followed_by opening v = inr m -> exists text, m = opening ++ text.
Proof.
  unfold followed_by. destruct (printed v) as [t | text]; [ discriminate | ].
  intros H. injection H as <-. now exists text.
Qed.

Lemma followed_by_string (opening : string) (v : Value) :
  is_string v = true -> exists m, followed_by opening v = inr m.
Proof. destruct v; try discriminate. intros _. eexists. reflexivity. Qed.

(** What the handler reads from the body is what the table calls the
    detail of the provider. *)
Lemma detail_agrees (message : Value) (code : option string)
    (r : AxiosResponse) (default : Value) :
  or_value (hetznerError_message r) default
  = detail_or (IsAxiosError (mkAxiosError message code (Some r))) default.
Proof.
  destruct r as [status [[[[c d] |]] |]]; try reflexivity.
  destruct d as [[| a t] | t | t | t]; reflexivity.
Qed.

(** [handleApiError] computes the message of the table, and throws where
    the table has a value that does not print. *)
Lemma handleApiError_table (e : Thrown) : handleApiError e = table_outcome e.
Proof.
  unfold table_outcome, table_message.
  destruct e as [[message code [r |]] | message | v].
  - unfold handleApiError, table_category.
    cbn [ax_response ax_message lookup_status status_table].
    rewrite !template_followed_by, !(detail_agrees message code r).
    replace (status_of (IsAxiosError (mkAxiosError message code (Some r))))
      with (resp_status r) by (now destruct r).
    destruct (resp_status r =? 401); [ reflexivity | ].
    destruct (resp_status r =? 403); [ reflexivity | ].
    destruct (resp_status r =? 404); [ reflexivity | ].
    destruct (resp_status r =? 409); [ reflexivity | ].
    destruct (resp_status r =? 422); [ reflexivity | ].
    destruct (resp_status r =? 429); [ reflexivity | ].
    destruct (resp_status r =? 503); reflexivity.
  - unfold handleApiError, table_category, code_is.
    cbn [ax_response ax_message ax_code lookup_code code_table].
    rewrite template_followed_by.
    destruct code as [code |]; [ | reflexivity ].
    destruct (String.eqb code "ECONNABORTED"); [ reflexivity | ].
    destruct (String.eqb code "ENOTFOUND"); reflexivity.
  - unfold handleApiError. rewrite template_followed_by. reflexivity.
  - reflexivity.
Qed.

Lemma table_message_form (e : Thrown) (m : string) :
  table_message e = inr m ->
  category_form (table_category e) m = true
  /\ (table_category e <> Fallback ->
      forall c : Category,
        category_form c m = true -> c = table_category e \/ c = Fallback).
Proof.
  unfold table_message.
  destruct (table_category e) eqn:Hrow; intros Hm.
  11: { split; [ | intros H; now contradiction H ].
        destruct e as [a | message | v];
          try (apply followed_by_inr in Hm; destruct Hm as [text ->];
               reflexivity).
        injection Hm as <-. reflexivity. }
  all: try (injection Hm as <-; split; [ reflexivity | other_rows ]).
  all: apply followed_by_inr in Hm; destruct Hm as [text ->];
    split; [ reflexivity | other_rows ].
Qed.

Lemma declared_detail (e : Thrown) (default : Value) :
  declared_error e = true ->
  is_string default = true ->
  is_string (detail_or e default) = true.
Proof.
  unfold detail_or.
  destruct e as [[message code [[status [[[[c d] |]] |]] |]] | message | v];
    simpl; try tauto.
  intros Hd Hdefault. apply andb_prop in Hd. destruct Hd as [_ Hd].
  destruct (given d); assumption.
Qed.

Lemma declared_own_message (e : Thrown) :
  declared_error e = true -> is_string (own_message e) = true.
Proof.
  destruct e as [[message code response] | message | v]; simpl;
    try tauto.
  intros H. apply andb_prop in H. tauto.
Qed.

Lemma declared_error_prints (e : Thrown) :
  declared_error e = true -> exists m, table_message e = inr m.
Proof.
  intros Hd. unfold table_message.
  destruct (table_category e);
    try (eexists; reflexivity);
    try (apply followed_by_string, declared_detail;
         [ exact Hd | reflexivity ]).
  - apply followed_by_string, declared_detail;
      [ exact Hd | now apply declared_own_message ].
  - destruct e as [a | message | v];
      try (apply followed_by_string; now apply declared_own_message).
    eexists. reflexivity.
Qed.

(** C1, as the code has it.  [handleApiError] gives every thrown value the
    message the table has for it: the fixed text of its row, or the opening
    of its row followed by the detail of the provider (or the default of
    the row, or the message of the error) and, on the row of other
    statuses, the status.  The message has the form of its row and, unless
    that row is the last one, of no other row than the last, whose opening
    all messages share.  Every thrown value whose messages are strings, as
    the types declare them, gets a message.  Where the value the row has to
    print cannot be converted to a string, [handleApiError] returns nothing:
    it throws the [TypeError] of the conversion. *)
Theorem handleApiError_follows_table (e : Thrown) :
  handleApiError e = table_outcome e
  /\ (forall m : string,
        table_message e = inr m ->
        handleApiError e = inr m
        /\ category_form (table_category e) m = true
        /\ (table_category e <> Fallback ->
            forall c : Category,
              category_form c m = true ->
              c = table_category e \/ c = Fallback))
  /\ (declared_error e = true ->
      exists m : string, table_message e = inr m)
  /\ (forall typeError : string,
        table_message e = inl typeError ->
        handleApiError e = inl (IsError (VString typeError))).
Proof.
  pose proof (handleApiError_table e) as Htable.
  split; [ exact Htable | ].
  split; [ | split ].
  - intros m Hm. split.
    + rewrite Htable. unfold table_outcome. now rewrite Hm.
    + now apply table_message_form.
  - apply declared_error_prints.
  - intros t Ht. rewrite Htable. unfold table_outcome. now rewrite Ht.
Qed.

(** C1, as stated, fails: [handleApiError] does not return a message for
    every thrown value.  For an [Error] whose message is a symbol, and for
    an answer with status 403 whose detail is an object that cannot be
    converted to a string, it throws a [TypeError]. *)
Lemma handleApiError_can_throw :
  handleApiError
    (IsError (VUnprintable "Cannot convert a Symbol value to a string"))
  = inl (IsError (VString "Cannot convert a Symbol value to a string"))
  /\ handleApiError
       (IsAxiosError
          (mkAxiosError (VString "Request failed with status code 403")
             (Some "ERR_BAD_REQUEST")
             (Some
                (mkResponse 403
                   (Some
                      (mkApiError
                         (Some
                            (mkErrorBody "forbidden"
                               (VUnprintable
                                  "Cannot convert object to primitive value")))))))))
     = inl (IsError (VString "Cannot convert object to primitive value"))
  /\ ~ (forall e : Thrown, exists m : string, handleApiError e = inr m).
Proof.
  split; [ reflexivity | split; [ reflexivity | ] ].
  intros H.
  destruct (H (IsError (VUnprintable "Cannot convert a Symbol value to a string")))
    as [m Hm].
  discriminate Hm.
Qed.

(** ** Enumeration of a plain object *)

Lemma insert_index_perm (V : Type) (n : N) (kv : string * V)
    (l : list (N * (string * V))) :
  Permutation (Obj.insert_index n kv l) ((n, kv) :: l).
Proof.
  induction l as [| [m kv'] l IH]; simpl.
  - apply Permutation_refl.
  - destruct (n <=? m)%N.
    + apply Permutation_refl.
    + eapply perm_trans; [ apply perm_skip, IH | apply perm_swap ].
Qed.

(** [Object.entries] lists every own property once. *)
Lemma entries_perm (V : Type) (o : Obj.t V) : Permutation (Obj.entries o) o.
Proof.
  unfold Obj.entries.
  induction o as [| [k v] o IH]; simpl.
  - apply Permutation_refl.
  - destruct (Obj.array_index k) as [n |].
    + eapply perm_trans.
      * apply Permutation_app_tail, Permutation_map, insert_index_perm.
      * simpl. apply perm_skip, IH.
    + eapply perm_trans; [ apply Permutation_sym, Permutation_middle | ].
      apply perm_skip, IH.
Qed.

Lemma entries_nil (V : Type) (o : Obj.t V) : Obj.entries o = [] -> o = [].
Proof.
  intros H. apply Permutation_nil.
  rewrite <- H. apply entries_perm.
Qed.

Lemma labels_lines_nonempty (labels : Obj.t string) :
  labels <> [] ->
  labels_lines labels = ["- **Labels**: " ++ labels_text labels].
Proof.
  intros Hne. unfold labels_lines, Obj.keys.
  rewrite length_map.
  destruct (Obj.entries labels) as [| kv rest] eqn:E.
  - contradiction Hne. now apply entries_nil.
  - reflexivity.
Qed.

(** ** The formatter *)

Section FormatterProperties.

Variable toLocaleString : string -> string.

Lemma formatServer_lines_split (s : HetznerServer) :
  exists base : list string,
    formatServer_lines toLocaleString s
    = (base ++ labels_lines (server_labels s))%list
    /\ Forall not_labels_line base.
Proof.
  unfold formatServer_lines.
  destruct (image s) as [i |].
  - eexists (_ :: _ :: _ :: _ :: _ :: _ :: _ :: _ :: nil). split.
    + simpl. reflexivity.
    + repeat constructor.
  - eexists (_ :: _ :: _ :: _ :: _ :: _ :: _ :: nil). split.
    + simpl. reflexivity.
    + repeat constructor.
Qed.

(** C7.  The block of a server is its lines joined by line feeds.  With an
    empty label map no line is a labels line; with the label map
    [{env: prod}] the last line is exactly [- **Labels**: env=prod] and no
    other line is a labels line; and with any non-empty label map the last
    line is [- **Labels**: ] followed by the [key=value] pairs of the map,
    each once, separated by a comma and a space, and no other line is a
    labels line. *)
Theorem formatServer_labels (s : HetznerServer) :
  formatServer toLocaleString s
  = join newline (formatServer_lines toLocaleString s)
  /\ (server_labels s = [] ->
      Forall not_labels_line (formatServer_lines toLocaleString s))
  /\ (server_labels s = [("env", "prod")] ->
      exists base : list string,
        formatServer_lines toLocaleString s
        = (base ++ ["- **Labels**: env=prod"])%list
        /\ Forall not_labels_line base)
  /\ (server_labels s <> [] ->
      exists (base : list string) (pairs : list (string * string)),
        formatServer_lines toLocaleString s
        = (base
           ++ [ ("- **Labels**: "
                 ++ join ", " (map (fun kv => fst kv ++ "=" ++ snd kv) pairs))%string ])%list
        /\ Forall not_labels_line base
        /\ Permutation pairs (server_labels s)).
Proof.
  destruct (formatServer_lines_split s) as [base [Hlines Hbase]].
  split; [ reflexivity | ].
  split; [ | split ].
  - intros Hnil. rewrite Hlines, Hnil. simpl. now rewrite app_nil_r.
  - intros Henv. exists base. split; [ | exact Hbase ].
    rewrite Hlines, Henv. reflexivity.
  - intros Hne. exists base, (Obj.entries (server_labels s)).
    split; [ | split ].
    + rewrite Hlines, (labels_lines_nonempty Hne). reflexivity.
    + exact Hbase.
    + apply entries_perm.
Qed.

End FormatterProperties.

(** ** The operation boundary *)

Lemma makeApiRequest_unfold T (env : Env) (net : Transport T)
    (endpoint : string) (method : Method) (data : option JSON.value)
    (params : option (Obj.t string)) (w : World) :
  makeApiRequest env net endpoint method data params w
  = match getApiClient env w with
    | (inr c, w1) =>
        let config := mkConfig endpoint method data params in
        (net c config,
         mkWorld (apiClient w1) (requests w1 ++ [(c, config)]))
    | (inl e, w1) => (inl e, w1)
    end.
Proof.
  unfold makeApiRequest, bind, client_request.
  destruct (getApiClient env w) as [[e | c] w1]; reflexivity.
Qed.

Ltac step_handler :=
  match goal with
  | |- context [match ?x with _ => _ end] =>
      lazymatch x with
      | context [match _ with _ => _ end] => fail
      | _ => destruct x eqn:?
      end
  end.

Lemma getApiClient_missing_token (env : Env) (w : World) :
  apiClient w = None ->
  HETZNER_API_TOKEN env = None \/ HETZNER_API_TOKEN env = Some EmptyString ->
  getApiClient env w
  = (inl (IsError "HETZNER_API_TOKEN environment variable is required"), w).
Proof.
  intros Hnone [Htoken | Htoken]; unfold getApiClient;
    rewrite Hnone, Htoken; reflexivity.
Qed.

Lemma getApiClient_memo (env : Env) (w : World) (c : AxiosInstance) :
  apiClient w = Some c -> getApiClient env w = (inr c, w).
Proof. intros H. unfold getApiClient. now rewrite H. Qed.

Ltac open_try_block :=
  unfold hetzner_list_servers_try, hetzner_get_server_try,
    hetzner_create_server_try, server_action_try,
    hetzner_list_ssh_keys_try, hetzner_get_ssh_key_try,
    hetzner_create_ssh_key_try, hetzner_delete_ssh_key_try,
    hetzner_list_server_types_try, hetzner_list_images_try,
    hetzner_list_locations_try, bind, ret, lift;
  rewrite makeApiRequest_unfold.

Ltac split_on_network provider :=
  match goal with
  | |- context [?net provider ?c ?cfg] => destruct (net provider c cfg) eqn:?
  end.

Section BoundaryProperties.

Variable toLocaleString : string -> string.
Variable env : Env.
Variable provider : Provider.

Local Abbreviation handler := (handler toLocaleString env provider).
Local Abbreviation try_block := (try_block toLocaleString env provider).
Local Abbreviation network_error := (network_error provider).

Lemma handler_is_try_catch (op : Operation) :
  handler op = try_catch (try_block op) catch_clause.
Proof. destruct op; reflexivity. Qed.

Lemma catch_clause_unfold (e : Thrown) (w : World) :
  catch_clause e w
  = (match table_message e with
     | inr m => inr (mkResult [m] true)
     | inl typeError => inl (IsError (VString typeError))
     end, w).
Proof.
  unfold catch_clause, bind, lift, ret.
  rewrite handleApiError_table. unfold table_outcome.
  destruct (table_message e); reflexivity.
Qed.

Lemma handler_caught (op : Operation) (w w' : World) (e : Thrown) :
  try_block op w = (inl e, w') -> handler op w = catch_clause e w'.
Proof.
  intros H. rewrite handler_is_try_catch. unfold try_catch. now rewrite H.
Qed.

Lemma handler_returned (op : Operation) (w w' : World) (r : CallToolResult) :
  try_block op w = (inr r, w') -> handler op w = (inr r, w').
Proof.
  intros H. rewrite handler_is_try_catch. unfold try_catch. now rewrite H.
Qed.

Lemma handler_world (op : Operation) (w : World) :
  snd (handler op w) = snd (try_block op w).
Proof.
  destruct (try_block op w) as [[e | r] w'] eqn:H.
  - rewrite (@handler_caught op _ _ _ H), catch_clause_unfold. reflexivity.
  - now rewrite (@handler_returned op _ _ _ H).
Qed.

Lemma try_block_success (op : Operation) (w w' : World)
    (r : CallToolResult) :
  try_block op w = (inr r, w') -> isError r = false /\ one_text r.
Proof.
  destruct op; simpl; open_try_block;
    destruct (getApiClient env w) as [[e | c] w1]; simpl;
    try discriminate;
    split_on_network provider; simpl; try discriminate;
    repeat step_handler; simpl;
    intros H; try discriminate H; injection H as <- <-;
    (split; [ reflexivity | eexists; reflexivity ]).
Qed.

Lemma try_block_caught (op : Operation) (w : World) :
  match try_block op w with
  | (inl e, w') =>
      match table_message e with
      | inr m => handler op w = (inr (mkResult [m] true), w')
      | inl typeError =>
          handler op w = (inl (IsError (VString typeError)), w')
      end
  | (inr r, w') =>
      handler op w = (inr r, w') /\ isError r = false /\ one_text r
  end.
Proof.
  destruct (try_block op w) as [[e | r] w'] eqn:H.
  - rewrite (@handler_caught op _ _ _ H), catch_clause_unfold.
    destruct (table_message e); reflexivity.
  - split; [ now apply handler_returned | now apply (@try_block_success op _ _ _ H) ].
Qed.

Lemma try_block_client_failure (op : Operation) (w w' : World) (e : Thrown) :
  getApiClient env w = (inl e, w') -> try_block op w = (inl e, w').
Proof.
  intros H. destruct op; simpl; open_try_block; rewrite H; reflexivity.
Qed.

Lemma try_block_network_error (op : Operation) (w w' : World)
    (c : AxiosInstance) (e : Thrown) :
  getApiClient env w = (inr c, w') ->
  network_error op c = Some e ->
  try_block op w
  = (inl e, mkWorld (apiClient w') (requests w' ++ [(c, request_of op)])).
Proof.
  intros H Hnet.
  destruct op; simpl in *; open_try_block; rewrite H; simpl;
    split_on_network provider; simpl in Hnet; try discriminate Hnet;
    injection Hnet as ->; reflexivity.
Qed.

(** C3, as the code has it.  The handler of every operation is its [try]
    block under the common [catch] clause.  Whatever the [try] block
    throws, the handler returns the message the table has for the thrown
    value, alone, with [isError] set to [true]; what the [try] block
    returns is returned as it is, one text with [isError] not set.  A
    failure of [getApiClient] and a rejection by the network are both
    thrown inside the [try] block.  The one thing that leaves the handler
    is the [TypeError] of [handleApiError] itself, for a thrown value whose
    message cannot be converted to a string: when what the [try] block
    throws has strings for messages, as the types declare, the handler
    returns one text, and that text carries the error flag exactly when the
    [try] block threw. *)
Theorem errors_caught_at_boundary (op : Operation) (w : World) :
  handler op = try_catch (try_block op) catch_clause
  /\ match try_block op w with
     | (inl e, w') =>
         match table_message e with
         | inr m => handler op w = (inr (mkResult [m] true), w')
         | inl typeError =>
             handler op w = (inl (IsError (VString typeError)), w')
         end
     | (inr r, w') =>
         handler op w = (inr r, w') /\ isError r = false /\ one_text r
     end
  /\ (forall (e : Thrown) (w' : World),
        getApiClient env w = (inl e, w') ->
        try_block op w = (inl e, w'))
  /\ (forall (c : AxiosInstance) (w' : World) (e : Thrown),
        getApiClient env w = (inr c, w') ->
        network_error op c = Some e ->
        try_block op w
        = (inl e,
           mkWorld (apiClient w') (requests w' ++ [(c, request_of op)])))
  /\ ((forall (e : Thrown) (w' : World),
         try_block op w = (inl e, w') -> declared_error e = true) ->
      exists (r : CallToolResult) (w' : World),
        run (handler op) w = (Returned r, w')
        /\ one_text r
        /\ (isError r = true
            <-> exists e : Thrown, fst (try_block op w) = inl e)).
Proof.
  split; [ apply handler_is_try_catch | ].
  split; [ apply try_block_caught | ].
  split; [ intros e w'; apply try_block_client_failure | ].
  split; [ intros c w' e; apply try_block_network_error | ].
  intros Hdeclared.
  pose proof (try_block_caught op w) as H. unfold run.
  destruct (try_block op w) as [[e | r] w'].
  - destruct (declared_error_prints e (Hdeclared e w' eq_refl)) as [m Hm].
    rewrite Hm in H. rewrite H.
    exists (mkResult [m] true), w'.
    split; [ reflexivity | split; [ eexists; reflexivity | ] ].
    split; [ intros _; now exists e | reflexivity ].
  - destruct H as [-> [Hflag Hone]]. exists r, w'.
    split; [ reflexivity | split; [ exact Hone | ] ].
    rewrite Hflag. split; [ discriminate | ].
    intros [e He]. discriminate He.
Qed.

Lemma handler_keeps_client (op : Operation) (w : World) (c : AxiosInstance) :
  apiClient w = Some c -> apiClient (snd (handler op w)) = Some c.
Proof.
  intros Hc. rewrite handler_world.
  destruct op; simpl; open_try_block;
    rewrite (getApiClient_memo env w Hc); simpl;
    split_on_network provider; simpl; try exact Hc;
    repeat step_handler; simpl; exact Hc.
Qed.

Lemma handler_requests (op : Operation) (w : World) :
  requests (snd (handler op w))
  = match getApiClient env w with
    | (inr c, w1) => (requests w1 ++ [(c, request_of op)])%list
    | (inl _, w1) => requests w1
    end.
Proof.
  rewrite handler_world.
  destruct op; simpl; open_try_block;
    destruct (getApiClient env w) as [[e | c] w1]; simpl; try reflexivity;
    split_on_network provider; simpl; try reflexivity;
    repeat step_handler; reflexivity.
Qed.

(** What the handler answers when the client is there and the network
    resolves the request. *)
Lemma makeApiRequest_resolved T (net : Transport T) (endpoint : string)
    (method : Method) (data : option JSON.value)
    (params : option (Obj.t string)) (w w1 : World) (c : AxiosInstance)
    (answer : T) :
  getApiClient env w = (inr c, w1) ->
  net c (mkConfig endpoint method data params) = inr answer ->
  makeApiRequest env net endpoint method data params w
  = (inr answer,
     mkWorld (apiClient w1)
       (requests w1 ++ [(c, mkConfig endpoint method data params)])).
Proof.
  intros Hget Hnet. rewrite makeApiRequest_unfold, Hget. simpl.
  now rewrite Hnet.
Qed.

End BoundaryProperties.

(** C3, as stated, fails: an exception can leave an operation.  When the
    provider answers [hetzner_list_servers] with status 403 and a detail
    that cannot be converted to a string, [handleApiError] throws inside the
    [catch] clause, and the call ends with that [TypeError], not with a
    result. *)
Lemma error_can_escape :
  run (handler Example.plain_locale Example.with_token
         (Example.rejects_with Example.odd_detail)
         (ListServers (mkListServersParams None MARKDOWN)))
      initial_world
  = (Escaped (IsError (VString "Cannot convert object to primitive value")),
     mkWorld (Some (client_for "secret"))
       [ (client_for "secret",
          mkConfig "/servers" GET None (Some [])) ])
  /\ escapes
       (run (handler Example.plain_locale Example.with_token
               (Example.rejects_with Example.odd_detail)
               (ListServers (mkListServersParams None MARKDOWN)))
            initial_world).
Proof.
  split; [ reflexivity | ].
  eexists _, _. reflexivity.
Qed.

(** ** The transport client and the configuration error *)

(** C4, as the code has it.  With no client built yet and the credential
    absent from the environment (unset or empty), the handler of every
    operation returns the message of the configuration error, normalized,
    as the one text of a result whose [isError] is [true]; it sends no
    request and leaves the state as it was.  What ends the process for such an environment is [main], at
    startup, before any operation is served. *)
Theorem configuration_error_is_normalized
    (toLocaleString : string -> string) (env : Env) (provider : Provider)
    (op : Operation) (w : World) :
  apiClient w = None ->
  HETZNER_API_TOKEN env = None \/ HETZNER_API_TOKEN env = Some EmptyString ->
  run (handler toLocaleString env provider op) w
  = (Returned (mkResult [missing_token_message] true), w)
  /\ main env = Exit 1.
Proof.
  intros Hnone Htoken.
  split; [ | unfold main; destruct Htoken as [-> | ->]; reflexivity ].
  pose proof (getApiClient_missing_token env w Hnone Htoken) as Hget.
  pose proof (try_block_caught toLocaleString env provider op w) as Hcaught.
  rewrite (@try_block_client_failure toLocaleString env provider op w w _ Hget)
    in Hcaught.
  unfold run. rewrite Hcaught. reflexivity.
Qed.

Lemma configuration_error_is_normalized_witness :
  run (handler Example.plain_locale Example.no_token Example.offline
         (ListServers (mkListServersParams None MARKDOWN)))
      initial_world
  = (Returned (mkResult [missing_token_message] true), initial_world)
  /\ main Example.no_token = Exit 1.
Proof.
  apply (configuration_error_is_normalized Example.plain_locale
           Example.no_token Example.offline
           (ListServers (mkListServersParams None MARKDOWN)) initial_world).
  - reflexivity.
  - left. reflexivity.
Defined.

(** C4, as stated, fails: at the first use of the client without a
    credential, the call of [hetzner_list_servers] does not end with an
    escaped exception; its handler returns the normalized error result. *)
Lemma configuration_error_does_not_escape :
  call_tool Example.plain_locale Example.no_token Example.offline
    (call_list_servers None None) initial_world
  = (Returned (mkResult [missing_token_message] true), initial_world)
  /\ ~ escapes
       (call_tool Example.plain_locale Example.no_token Example.offline
          (call_list_servers None None) initial_world).
Proof.
  split; [ reflexivity | ].
  intros [e [w H]]. discriminate H.
Qed.

Lemma getApiClient_after_success (env : Env) (w w1 : World)
    (c : AxiosInstance) :
  getApiClient env w = (inr c, w1) ->
  apiClient w1 = Some c
  /\ requests w1 = requests w
  /\ (forall env' : Env, getApiClient env' w1 = (inr c, w1))
  /\ (forall (toLocaleString : string -> string) (env' : Env)
        (provider : Provider) (op : Operation),
        apiClient (snd (handler toLocaleString env' provider op w1)) = Some c)
  /\ (apiClient w = None ->
      exists token : string,
        HETZNER_API_TOKEN env = Some token
        /\ truthy token = true
        /\ c = client_for token
        /\ baseURL c = API_BASE_URL
        /\ timeout c = 30000)
  /\ (forall c0 : AxiosInstance, apiClient w = Some c0 -> c = c0 /\ w1 = w).
Proof.
  intros Hget.
  assert (Hmemo : apiClient w1 = Some c /\ requests w1 = requests w).
  { unfold getApiClient in Hget.
    destruct (apiClient w) as [c0 |] eqn:Hw.
    - injection Hget as <- <-. split; [ exact Hw | reflexivity ].
    - destruct (HETZNER_API_TOKEN env) as [token |]; [ | discriminate Hget ].
      destruct (truthy token); [ | discriminate Hget ].
      injection Hget as <- <-. split; reflexivity. }
  destruct Hmemo as [Hc Hreq].
  split; [ exact Hc | ].
  split; [ exact Hreq | ].
  split; [ intros env'; now apply getApiClient_memo | ].
  split; [ intros toLocaleString env' provider op;
           now apply handler_keeps_client | ].
  split.
  - intros Hnone. unfold getApiClient in Hget. rewrite Hnone in Hget.
    destruct (HETZNER_API_TOKEN env) as [token |]; [ | discriminate Hget ].
    destruct (truthy token) eqn:Ht; [ | discriminate Hget ].
    injection Hget as <- <-. exists token. repeat split; reflexivity || exact Ht.
  - intros c0 Hsome. unfold getApiClient in Hget. rewrite Hsome in Hget.
    injection Hget as <- <-. split; reflexivity.
Qed.

Lemma getApiClient_first_use (env : Env) (w : World) (token : string) :
  apiClient w = None ->
  HETZNER_API_TOKEN env = Some token ->
  token <> EmptyString ->
  getApiClient env w
  = (inr (client_for token),
     mkWorld (Some (client_for token)) (requests w)).
Proof.
  intros Hnone Htoken Hne. unfold getApiClient. rewrite Hnone, Htoken.
  destruct token; [ contradiction | reflexivity ].
Qed.

(** C8.  At first use, with a credential in the environment,
    [getApiClient] succeeds: it builds the client from the credential, with
    the fixed base URL, a timeout of 30000 milliseconds and the fixed
    headers, stores it and returns it, and sends nothing; without a
    credential it throws and stores nothing.  With a client stored, it
    returns that client and changes nothing.  So when a call of
    [getApiClient] succeeds, the client it returns is the memoized one from
    then on: every later call returns that client and changes nothing,
    whatever the environment holds by then, and the handler of every
    operation leaves it in place. *)
Theorem getApiClient_memoized (env : Env) (w : World) :
  (forall token : string,
     apiClient w = None ->
     HETZNER_API_TOKEN env = Some token ->
     token <> EmptyString ->
     getApiClient env w
     = (inr (mkInstance "https://api.hetzner.cloud/v1" 30000
               [ ("Authorization", "Bearer " ++ token);
                 ("Content-Type", "application/json");
                 ("Accept", "application/json") ]),
        mkWorld
          (Some (mkInstance "https://api.hetzner.cloud/v1" 30000
                   [ ("Authorization", "Bearer " ++ token);
                     ("Content-Type", "application/json");
                     ("Accept", "application/json") ]))
          (requests w)))
  /\ (apiClient w = None ->
      HETZNER_API_TOKEN env = None
      \/ HETZNER_API_TOKEN env = Some EmptyString ->
      getApiClient env w
      = (inl (IsError
                (VString "HETZNER_API_TOKEN environment variable is required")),
         w))
  /\ (forall c0 : AxiosInstance,
        apiClient w = Some c0 -> getApiClient env w = (inr c0, w))
  /\ (forall (w1 : World) (c : AxiosInstance),
        getApiClient env w = (inr c, w1) ->
        apiClient w1 = Some c
        /\ requests w1 = requests w
        /\ (forall env' : Env, getApiClient env' w1 = (inr c, w1))
        /\ (forall (toLocaleString : string -> string) (env' : Env)
              (provider : Provider) (op : Operation),
              apiClient (snd (handler toLocaleString env' provider op w1))
              = Some c)
        /\ (apiClient w = None ->
            exists token : string,
              HETZNER_API_TOKEN env = Some token
              /\ truthy token = true
              /\ c = client_for token
              /\ baseURL c = API_BASE_URL
              /\ timeout c = 30000)
        /\ (forall c0 : AxiosInstance,
              apiClient w = Some c0 -> c = c0 /\ w1 = w)).
Proof.
  split; [ intros token; apply getApiClient_first_use | ].
  split; [ apply getApiClient_missing_token | ].
  split; [ intros c0; apply getApiClient_memo | ].
  intros w1 c. apply getApiClient_after_success.
Qed.

Lemma getApiClient_memoized_witness :
  getApiClient Example.no_token
    (mkWorld (Some (client_for "secret")) [])
  = (inr (client_for "secret"), mkWorld (Some (client_for "secret")) [])
  /\ baseURL (client_for "secret") = "https://api.hetzner.cloud/v1"
  /\ timeout (client_for "secret") = 30000.
Proof.
  assert (Hfirst : getApiClient Example.with_token initial_world
                   = (inr (client_for "secret"),
                      mkWorld (Some (client_for "secret")) []))
    by reflexivity.
  destruct (getApiClient_memoized Example.with_token initial_world)
    as [_ [_ [_ Hafter]]].
  destruct (Hafter _ _ Hfirst) as [_ [_ [Hlater [_ [Hbuilt _]]]]].
  split; [ apply Hlater | ].
  destruct (Hbuilt eq_refl) as [token [_ [_ [_ [Hurl Htimeout]]]]].
  split; [ exact Hurl | exact Htimeout ].
Defined.

(** ** Input validation *)

(** The character class of the pattern is the set of letters, digits and
    the hyphen. *)
Lemma name_char_allowed (c : ascii) : Schema.name_char c = allowed_char c.
Proof. destruct c as [[] [] [] [] [] [] [] []]; reflexivity. Qed.

Lemma all_chars_false (f : ascii -> bool) (s : string) (c : ascii) :
  In c (list_ascii_of_string s) -> f c = false -> Schema.all_chars f s = false.
Proof.
  induction s as [| a s IH]; simpl; [ contradiction | ].
  intros [-> | Hin] Hf.
  - now rewrite Hf.
  - rewrite (IH Hin Hf). apply andb_false_r.
Qed.

Lemma name_char_ascii (c : ascii) :
  Schema.name_char c = true -> (nat_of_ascii c <? 128)%nat = true.
Proof.
  destruct c as [[] [] [] [] [] [] [] []]; vm_compute; intros H;
    first [ reflexivity | discriminate H ].
Qed.

Lemma ascii_unit (c : ascii) (rest : string) (pending : nat) :
  (nat_of_ascii c <? 128)%nat = true ->
  utf16_units pending (String c rest) = S (utf16_units 0 rest).
Proof.
  intros H. cbn [utf16_units]. cbv zeta. unfold continuation.
  rewrite H.
  replace (128 <=? nat_of_ascii c)%nat with false; [ reflexivity | ].
  symmetry. apply Nat.leb_gt. now apply Nat.ltb_lt.
Qed.

(** A text of letters, digits and hyphens has one code unit per byte. *)
Lemma name_chars_length (s : string) :
  Schema.all_chars Schema.name_char s = true ->
  String_length s = String.length s.
Proof.
  unfold String_length.
  induction s as [| c s IH]; [ reflexivity | ].
  cbn [Schema.all_chars]. intros H. apply andb_prop in H.
  destruct H as [Hc Hs].
  rewrite (@ascii_unit c s 0 (@name_char_ascii c Hc)). cbn [String.length].
  now rewrite IH.
Qed.

Lemma invalid_server_name_refused (s : string) :
  invalid_server_name s -> Schema.create_server_name s = false.
Proof.
  unfold Schema.create_server_name.
  intros [-> | [Hlong | [c [Hin Hc]]]].
  - reflexivity.
  - unfold Schema.max, Schema.name_regex.
    destruct (Schema.all_chars Schema.name_char s) eqn:Hchars.
    + rewrite (@name_chars_length s Hchars).
      replace (String.length s <=? 255)%nat with false
        by (symmetry; apply Nat.leb_gt; exact Hlong).
      now rewrite andb_false_r.
    + now rewrite !andb_false_r.
  - unfold Schema.name_regex.
    rewrite <- name_char_allowed in Hc.
    rewrite (all_chars_false Schema.name_char s c Hin Hc).
    now rewrite !andb_false_r.
Qed.

(** C6.  A call of [hetzner_create_server] whose name is empty, longer than
    255 characters, or holds a character that is not a letter, a digit or a
    hyphen is refused by the input schema: the handler does not run, no
    client is built and no request is sent. *)
Theorem create_server_refuses_invalid_name
    (toLocaleString : string -> string) (env : Env) (provider : Provider)
    (input : CreateServerInput) (w : World) :
  invalid_server_name (in_name input) ->
  parse (call_create_server input) = None
  /\ call_tool toLocaleString env provider (call_create_server input) w
     = (Refused, w).
Proof.
  intros Hinvalid.
  assert (Hparse : parse (call_create_server input) = None).
  { simpl. unfold parse_create_server, guard.
    now rewrite (invalid_server_name_refused Hinvalid). }
  split; [ exact Hparse | ].
  unfold call_tool. now rewrite Hparse.
Qed.

Lemma create_server_refuses_invalid_name_witness :
  call_tool Example.plain_locale Example.with_token
    (Example.creates_with (Some "hunter2"))
    (call_create_server
       (mkCreateServerInput "my app" "cx22" "ubuntu-24.04" None None None
          None None))
    initial_world
  = (Refused, initial_world).
Proof.
  apply (create_server_refuses_invalid_name Example.plain_locale
           Example.with_token (Example.creates_with (Some "hunter2"))
           (mkCreateServerInput "my app" "cx22" "ubuntu-24.04" None None None
              None None)
           initial_world).
  right. right. exists " "%char. split.
  - simpl. tauto.
  - reflexivity.
Defined.

(** ** The request of [hetzner_create_server] *)

(** C9.  With [ssh_keys] supplied as an empty list the request body has no
    [ssh_keys] member, the request is the one built without the parameter,
    and the whole call behaves as the call without the parameter. *)
Theorem create_server_empty_ssh_keys
    (toLocaleString : string -> string) (env : Env) (provider : Provider)
    (p : CreateServerParams) (w : World) :
  Obj.get_own (create_server_body (with_ssh_keys p (Some []))) "ssh_keys"
  = None
  /\ create_server_body (with_ssh_keys p (Some []))
     = create_server_body (with_ssh_keys p None)
  /\ request_of (CreateServer (with_ssh_keys p (Some [])))
     = request_of (CreateServer (with_ssh_keys p None))
  /\ hetzner_create_server toLocaleString env provider
       (with_ssh_keys p (Some [])) w
     = hetzner_create_server toLocaleString env provider
         (with_ssh_keys p None) w
  /\ (forall (c : AxiosInstance) (w1 : World),
        getApiClient env w = (inr c, w1) ->
        requests
          (snd (hetzner_create_server toLocaleString env provider
                  (with_ssh_keys p (Some [])) w))
        = (requests w1
           ++ [ (c,
                 mkConfig "/servers" POST
                   (Some (body_json (create_server_body (with_ssh_keys p None))))
                   None) ])%list).
Proof.
  split; [ | repeat split ].
  2: { intros c w1 Hget.
       pose proof (handler_requests toLocaleString env provider
                     (CreateServer (with_ssh_keys p (Some []))) w) as Hreq.
       rewrite Hget in Hreq. exact Hreq. }
  unfold create_server_body, with_ssh_keys, set_when; simpl.
  destruct (cs_location p) as [l |]; [ destruct (truthy l) | ];
    destruct (cs_labels p); reflexivity.
Qed.

(** ** Empty listings *)

(** C10.  With the client there and a provider that answers the request
    with an empty list, [hetzner_list_servers] and [hetzner_list_ssh_keys]
    return the fixed guidance message in markdown mode and the rendering of
    the empty array in JSON mode, without the error flag. *)
Theorem empty_listing_guidance
    (toLocaleString : string -> string) (env : Env) (provider : Provider)
    (w w1 : World) (c : AxiosInstance)
    (label_selector : option string) (format : ResponseFormat) :
  getApiClient env w = (inr c, w1) ->
  (net_list_servers provider c
     (request_of (ListServers (mkListServersParams label_selector format)))
   = inr (mkListServers []) ->
   fst (hetzner_list_servers toLocaleString env provider
          (mkListServersParams label_selector format) w)
   = inr (text_result
            match format with
            | MARKDOWN =>
                "No servers found. Use `hetzner_create_server` to create one."
            | JSON_FORMAT => "[]"
            end))
  /\ (net_list_ssh_keys provider c
        (request_of (ListSSHKeys (mkFormatParams format)))
      = inr (mkListSSHKeys []) ->
      fst (hetzner_list_ssh_keys toLocaleString env provider
             (mkFormatParams format) w)
      = inr (text_result
               match format with
               | MARKDOWN =>
                   "No SSH keys found. Use `hetzner_create_ssh_key` to add one."
               | JSON_FORMAT => "[]"
               end)).
Proof.
  intros Hget. split; intros Hnet.
  - unfold hetzner_list_servers, hetzner_list_servers_try, try_catch, bind.
    erewrite makeApiRequest_resolved; [ | exact Hget | exact Hnet ].
    destruct format; reflexivity.
  - unfold hetzner_list_ssh_keys, hetzner_list_ssh_keys_try, try_catch, bind.
    erewrite makeApiRequest_resolved; [ | exact Hget | exact Hnet ].
    destruct format; reflexivity.
Qed.

Lemma empty_listing_guidance_witness :
  (fst (hetzner_list_servers Example.plain_locale Example.with_token
          Example.empty_project (mkListServersParams None MARKDOWN)
          initial_world)
   = inr (text_result
            "No servers found. Use `hetzner_create_server` to create one."))
  /\ (fst (hetzner_list_ssh_keys Example.plain_locale Example.with_token
             Example.empty_project (mkFormatParams MARKDOWN) initial_world)
      = inr (text_result
               "No SSH keys found. Use `hetzner_create_ssh_key` to add one.")).
Proof.
  assert (Hget : getApiClient Example.with_token initial_world
                 = (inr (client_for "secret"),
                    mkWorld (Some (client_for "secret")) []))
    by reflexivity.
  destruct (@empty_listing_guidance Example.plain_locale Example.with_token
              Example.empty_project initial_world _ _ None MARKDOWN Hget)
    as [Hservers Hkeys].
  split; [ apply Hservers | apply Hkeys ]; reflexivity.
Defined.

(** ** The image listing *)

Lemma set_new (V : Type) (o : Obj.t V) (k : string) (v : V) :
  Obj.get_own o k = None -> Obj.set o k v = (o ++ [(k, v)])%list.
Proof.
  induction o as [| [k' v'] o IH]; simpl; [ reflexivity | ].
  destruct (String.eqb k' k); [ discriminate | ].
  intros H. now rewrite (IH H).
Qed.

Lemma set_existing (A : Type) (o : Obj.t (list A)) (k : string)
    (group : list A) (x : A) :
  Obj.get_own o k = Some group ->
  Permutation (flat_map snd (Obj.set o k (group ++ [x])%list))
    (flat_map snd o ++ [x]).
Proof.
  induction o as [| [k' v'] o IH]; simpl; [ discriminate | ].
  destruct (String.eqb k' k).
  - intros H. injection H as ->. simpl.
    rewrite <- !app_assoc. apply Permutation_app_head, Permutation_app_comm.
  - intros H. simpl. rewrite <- app_assoc.
    apply Permutation_app_head, IH, H.
Qed.

Section ImageListing.

Variable toLocaleString : string -> string.
Variable env : Env.
Variable provider : Provider.

(** The groups hold the images they were given, each once. *)
Lemma group_by_flavor_perm (imgs : list HetznerImage) :
  forall acc groups : Obj.t (list HetznerImage),
    group_by_flavor imgs acc = inr groups ->
    Permutation (flat_map snd groups) (flat_map snd acc ++ imgs).
Proof.
  induction imgs as [| img imgs IH]; cbn [group_by_flavor];
    intros acc groups H.
  - injection H as ->. now rewrite app_nil_r.
  - remember (flavor_of img) as flavor eqn:Hflavor. cbv zeta in H.
    destruct (Obj.get_own acc flavor) as [group |] eqn:Hown.
    + apply IH in H.
      eapply perm_trans; [ exact H | ].
      eapply perm_trans;
        [ apply Permutation_app_tail; eapply set_existing; exact Hown | ].
      now rewrite <- app_assoc.
    + destruct (Obj.inherited flavor); [ discriminate H | ].
      apply IH in H.
      eapply perm_trans; [ exact H | ].
      rewrite (set_new _ _ _ Hown), flat_map_app. simpl.
      rewrite <- app_assoc. apply Permutation_refl.
Qed.

(** Grouping succeeds when no flavor is named like a member of
    [Object.prototype]. *)
Lemma group_by_flavor_succeeds (imgs : list HetznerImage) :
  (forall img, In img imgs -> Obj.inherited (flavor_of img) = false) ->
  forall acc, exists groups, group_by_flavor imgs acc = inr groups.
Proof.
  induction imgs as [| img imgs IH]; cbn [group_by_flavor];
    intros Hplain acc.
  - eexists. reflexivity.
  - assert (Himg : Obj.inherited (flavor_of img) = false)
      by (apply Hplain; now left).
    cbv zeta. rewrite Himg.
    destruct (Obj.get_own acc (flavor_of img));
      apply IH; intros img' Hin; apply Hplain; now right.
Qed.

Lemma image_lines_kept (imgs : list HetznerImage) :
  filter is_image_line (map image_line imgs) = map image_line imgs.
Proof.
  induction imgs as [| img imgs IH]; simpl; [ reflexivity | now rewrite IH ].
Qed.

Lemma flavor_lines_images (es : list (string * list HetznerImage)) :
  filter is_image_line (flat_map flavor_lines es)
  = map image_line (flat_map snd es).
Proof.
  induction es as [| [flavor imgs] es IH]; simpl; [ reflexivity | ].
  rewrite <- app_assoc, filter_app, filter_app, image_lines_kept, IH, map_app.
  reflexivity.
Qed.

(** X19.  With the client there and a provider that answers the request,
    [hetzner_list_images] sends one request to [/images] whose query asks
    for the given type, or for [system] when none is given.  The images it
    goes on with are the entries of the answer whose status is [available]:
    in JSON mode the text is the rendering of exactly these; in markdown
    mode, as long as no flavor is named like a member of
    [Object.prototype], the image lines of the text are the lines of
    exactly these, each once. *)
Theorem list_images_query_and_filter (p : ListImagesParams) (w w1 : World)
    (c : AxiosInstance) (answer : ListImagesResponse) :
  getApiClient env w = (inr c, w1) ->
  net_list_images provider c (request_of (ListImages p)) = inr answer ->
  let available := filter is_available (images answer) in
  let out := hetzner_list_images env provider p w in
  request_of (ListImages p)
  = mkConfig "/images" GET None
      (Some [ ("type",
               match li_type p with
               | Some t => ImageType_text t
               | None => "system"
               end) ])
  /\ requests (snd out) = (requests w1 ++ [(c, request_of (ListImages p))])%list
  /\ (forall img : HetznerImage,
        In img available
        <-> In img (images answer) /\ img_status img = Available)
  /\ (li_response_format p = JSON_FORMAT ->
      fst out
      = inr (text_result
               (JSON.stringify (JSON.Arr (map ToJSON.image available)))))
  /\ (li_response_format p = MARKDOWN ->
      (forall img : HetznerImage,
         In img available -> Obj.inherited (flavor_of img) = false) ->
      exists lines : list string,
        fst out = inr (text_result (lines_text lines))
        /\ Permutation (filter is_image_line lines)
             (map image_line available)).
Proof.
  intros Hget Hnet available out.
  split; [ destruct p as [[t |] f]; reflexivity | ].
  split.
  { pose proof (handler_requests toLocaleString env provider (ListImages p) w)
      as Hreq.
    rewrite Hget in Hreq. exact Hreq. }
  split.
  { intros img. unfold available. rewrite filter_In. unfold is_available.
    destruct (img_status img); split; intros [Hin H];
      try discriminate H; now split. }
  assert (Hout : out
                 = try_catch
                     (match li_response_format p with
                      | JSON_FORMAT =>
                          ret (text_result
                                 (JSON.stringify
                                    (JSON.Arr (map ToJSON.image available))))
                      | MARKDOWN =>
                          byFlavor <- lift (group_by_flavor available []) ;;
                          ret (text_result
                                 (lines_text
                                    ([ "# Available Images"; EmptyString ]
                                     ++ flat_map flavor_lines
                                          (Obj.entries byFlavor))))
                      end)
                     catch_clause
                     (mkWorld (apiClient w1)
                        (requests w1 ++ [(c, request_of (ListImages p))]))).
  { unfold out, hetzner_list_images, hetzner_list_images_try, try_catch, bind.
    erewrite makeApiRequest_resolved; [ | exact Hget | exact Hnet ].
    reflexivity. }
  split.
  - intros Hjson. rewrite Hout, Hjson. reflexivity.
  - intros Hmd Hplain. rewrite Hout, Hmd.
    destruct (group_by_flavor_succeeds available Hplain [])
      as [groups Hgroups].
    unfold try_catch, bind, lift, ret. rewrite Hgroups. simpl fst.
    eexists. split; [ reflexivity | ].
    assert (Hhead : forall rest : list string,
               filter is_image_line
                 ("# Available Images" :: EmptyString :: rest)
               = filter is_image_line rest)
      by reflexivity.
    simpl app. rewrite Hhead, flavor_lines_images.
    apply Permutation_map.
    eapply perm_trans;
      [ apply Permutation_flat_map, entries_perm | ].
    apply (group_by_flavor_perm available [] Hgroups).
Qed.

End ImageListing.

(** C5, at the input where the code departs from it.  The call of
    [hetzner_list_images] without a type filter (and so in markdown mode)
    asks for the type [system]; the provider answers with two images of
    status [available], one of them with the flavor [constructor].  The
    handler returns neither of them: grouping by flavor reads
    [byFlavor["constructor"]] through the prototype chain, [push] throws,
    and the result is the error text with the error flag. *)
Lemma list_images_loses_available_images :
  filter is_available [Example.ubuntu; MoreExamples.odd_system_image]
  = [Example.ubuntu; MoreExamples.odd_system_image]
  /\ call_tool Example.plain_locale Example.with_token
       MoreExamples.odd_system_catalog (call_list_images None None)
       initial_world
     = (Returned
          (mkResult ["Error: byFlavor[flavor].push is not a function"] true),
        mkWorld (Some (client_for "secret"))
          [ (client_for "secret",
             mkConfig "/images" GET None (Some [("type", "system")])) ]).
Proof. split; reflexivity. Qed.

Lemma list_images_query_and_filter_witness :
  fst (hetzner_list_images Example.with_token
         Example.two_images (mkListImagesParams None JSON_FORMAT)
         initial_world)
  = inr (text_result
           (JSON.stringify (JSON.Arr [ToJSON.image Example.ubuntu]))).
Proof.
  assert (Hget : getApiClient Example.with_token initial_world
                 = (inr (client_for "secret"),
                    mkWorld (Some (client_for "secret")) []))
    by reflexivity.
  assert (Hnet : net_list_images Example.two_images (client_for "secret")
                   (request_of (ListImages (mkListImagesParams None JSON_FORMAT)))
                 = inr (mkListImages [Example.ubuntu; Example.debian_creating]))
    by reflexivity.
  destruct (@list_images_query_and_filter Example.plain_locale
              Example.with_token Example.two_images
              (mkListImagesParams None JSON_FORMAT) initial_world _ _ _
              Hget Hnet)
    as [_ [_ [_ [Hjson _]]]].
  apply Hjson. reflexivity.
Defined.

(** ** The root password of a created server *)

Lemma formatServer_heading (toLocaleString : string -> string)
    (s : HetznerServer) :
  exists rest : string, formatServer toLocaleString s = String "#" rest.
Proof.
  unfold formatServer, lines_text, join, formatServer_lines.
  eexists. simpl. reflexivity.
Qed.

Lemma password_report (toLocaleString : string -> string)
    (srv : HetznerServer) (rootPassword : option string) :
  let lines := create_server_lines toLocaleString srv rootPassword in
  shows_password lines = password_given rootPassword
  /\ shows_guidance lines = password_given rootPassword
  /\ reports_no_password lines = negb (password_given rootPassword).
Proof.
  unfold create_server_lines, shows_password, shows_guidance,
    reports_no_password.
  destruct (formatServer_heading toLocaleString srv) as [rest ->].
  destruct rootPassword as [[| a pw] |]; simpl; repeat split; reflexivity.
Qed.

(** C2, as the code has it.  With the client there and a provider that
    answers the request, the markdown text of [hetzner_create_server] is
    made of the lines of [create_server_lines]: it shows a root password,
    followed by the guidance that it will not be shown again, exactly when
    the answer carries a non-empty [root_password], and it reports that no
    root password was generated exactly when the answer carries none; so
    one of the two is there and never both, whatever SSH keys were
    supplied.  The JSON text is the rendering of the server and the
    [root_password] of the answer. *)
Theorem create_server_password_report
    (toLocaleString : string -> string) (env : Env) (provider : Provider)
    (p : CreateServerParams) (w w1 : World) (c : AxiosInstance)
    (answer : CreateServerResponse) :
  getApiClient env w = (inr c, w1) ->
  net_create_server provider c (request_of (CreateServer p)) = inr answer ->
  let srv := created_server answer in
  let given := password_given (root_password answer) in
  let lines := create_server_lines toLocaleString srv (root_password answer) in
  let out := hetzner_create_server toLocaleString env provider p w in
  (cs_response_format p = MARKDOWN ->
   fst out = inr (text_result (lines_text lines)))
  /\ (cs_response_format p = JSON_FORMAT ->
      fst out
      = inr (text_result
               (JSON.stringify
                  (JSON.Object
                     [ ("server", ToJSON.server srv);
                       ("root_password",
                         JSON.of_option JSON.Str (root_password answer)) ]))))
  /\ shows_password lines = given
  /\ shows_guidance lines = given
  /\ reports_no_password lines = negb given
  /\ (forall pw : string,
        root_password answer = Some pw ->
        truthy pw = true ->
        In ("**Root Password**: `" ++ pw ++ "`") lines).
Proof.
  intros Hget Hnet srv given lines out.
  assert (Hout : out
                 = (inr (text_result
                           match cs_response_format p with
                           | JSON_FORMAT =>
                               JSON.stringify
                                 (create_server_json srv (root_password answer))
                           | MARKDOWN => lines_text lines
                           end),
                    mkWorld (apiClient w1)
                      (requests w1 ++ [(c, request_of (CreateServer p))]))).
  { unfold out, hetzner_create_server, hetzner_create_server_try, try_catch,
      bind.
    erewrite makeApiRequest_resolved; [ | exact Hget | exact Hnet ].
    destruct (cs_response_format p); reflexivity. }
  split; [ intros Hmd; rewrite Hout, Hmd; reflexivity | ].
  split; [ intros Hjson; rewrite Hout, Hjson; reflexivity | ].
  destruct (password_report toLocaleString srv (root_password answer))
    as [Hshow [Hguide Hnone]].
  split; [ exact Hshow | ].
  split; [ exact Hguide | ].
  split; [ exact Hnone | ].
  intros pw Hpw Ht. unfold lines, create_server_lines, password_lines.
  rewrite Hpw, Ht. simpl. tauto.
Qed.

Lemma create_server_password_report_witness :
  fst (hetzner_create_server Example.plain_locale Example.with_token
         (Example.creates_with (Some "hunter2")) Example.my_app_params
         initial_world)
  = inr (text_result
           (lines_text
              (create_server_lines Example.plain_locale Example.my_app
                 (Some "hunter2"))))
  /\ shows_password
       (create_server_lines Example.plain_locale Example.my_app
          (Some "hunter2"))
     = true.
Proof.
  assert (Hget : getApiClient Example.with_token initial_world
                 = (inr (client_for "secret"),
                    mkWorld (Some (client_for "secret")) []))
    by reflexivity.
  assert (Hnet : net_create_server (Example.creates_with (Some "hunter2"))
                   (client_for "secret")
                   (request_of (CreateServer Example.my_app_params))
                 = inr (mkCreateServer Example.my_app Example.creating
                          (Some "hunter2")))
    by reflexivity.
  destruct (@create_server_password_report Example.plain_locale
              Example.with_token (Example.creates_with (Some "hunter2"))
              Example.my_app_params initial_world _ _ _ Hget Hnet)
    as [Hmd [_ [Hshow _]]].
  split; [ apply Hmd; reflexivity | exact Hshow ].
Defined.

(** C2, as stated, fails in both directions.  A call without SSH keys that
    the provider answers without a root password reports that none was
    generated and shows no password; a call with an SSH key that the
    provider answers with a root password shows the password. *)
Lemma password_report_ignores_ssh_keys :
  (fst (hetzner_create_server Example.plain_locale Example.with_token
          (Example.creates_with None) Example.my_app_params initial_world)
   = inr (text_result
            (lines_text
               (create_server_lines Example.plain_locale Example.my_app None)))
   /\ no_ssh_keys Example.my_app_params = true
   /\ ~ report_follows_ssh_keys Example.my_app_params
         (create_server_lines Example.plain_locale Example.my_app None))
  /\ (fst (hetzner_create_server Example.plain_locale Example.with_token
             (Example.creates_with (Some "hunter2")) Example.my_app_with_key
             initial_world)
      = inr (text_result
               (lines_text
                  (create_server_lines Example.plain_locale Example.my_app
                     (Some "hunter2"))))
      /\ no_ssh_keys Example.my_app_with_key = false
      /\ ~ report_follows_ssh_keys Example.my_app_with_key
            (create_server_lines Example.plain_locale Example.my_app
               (Some "hunter2"))).
Proof.
  repeat split; try reflexivity.
  - intros [H _]. vm_compute in H. discriminate H.
  - intros [H _]. vm_compute in H. discriminate H.
Qed.

(** * Further properties of the code *)

(** ** Requests and the memoized client *)

Lemma getApiClient_requests (env : Env) (w : World) :
  requests (snd (getApiClient env w)) = requests w.
Proof.
  unfold getApiClient.
  destruct (apiClient w); [ reflexivity | ].
  destruct (HETZNER_API_TOKEN env) as [token |]; [ | reflexivity ].
  destruct (truthy token); reflexivity.
Qed.

(** X1.  A call of a handler adds at most one request to those made so
    far and changes none of them: the request of the operation, made by the
    client [getApiClient] returns, when there is a client, and nothing when
    there is none. *)
Theorem one_request_per_call
    (toLocaleString : string -> string) (env : Env) (provider : Provider)
    (op : Operation) (w : World) :
  exists sent : list (AxiosInstance * AxiosRequestConfig),
    requests (snd (handler toLocaleString env provider op w))
    = (requests w ++ sent)%list
    /\ sent = match fst (getApiClient env w) with
              | inr c => [(c, request_of op)]
              | inl _ => []
              end.
Proof.
  pose proof (handler_requests toLocaleString env provider op w) as Hreq.
  pose proof (getApiClient_requests env w) as Hsame.
  destruct (getApiClient env w) as [[e | c] w1]; simpl in *;
    rewrite Hsame in Hreq; eexists; split; try reflexivity.
  - rewrite Hreq. now rewrite app_nil_r.
  - exact Hreq.
Qed.

(** X2.  Once a call has built the client, later calls keep using it even
    when the credential has left the environment: two calls in a row, the
    second under any environment and provider, make their two requests
    with the client built from the first token. *)
Theorem client_outlives_environment
    (toLocaleString : string -> string) (env env' : Env)
    (provider provider' : Provider) (op1 op2 : Operation) (w : World)
    (token : string) :
  apiClient w = None ->
  HETZNER_API_TOKEN env = Some token ->
  truthy token = true ->
  let w1 := snd (handler toLocaleString env provider op1 w) in
  let w2 := snd (handler toLocaleString env' provider' op2 w1) in
  apiClient w2 = Some (client_for token)
  /\ requests w2
     = (requests w
        ++ [ (client_for token, request_of op1);
             (client_for token, request_of op2) ])%list.
Proof.
  intros Hnone Htoken Htruthy w1 w2.
  assert (Hget : getApiClient env w
                 = (inr (client_for token),
                    mkWorld (Some (client_for token)) (requests w))).
  { unfold getApiClient. rewrite Hnone, Htoken, Htruthy. reflexivity. }
  assert (Hc1 : apiClient w1 = Some (client_for token)).
  { unfold w1.
    rewrite handler_is_try_catch. unfold try_catch, catch_clause, ret.
    destruct op1; simpl; open_try_block; rewrite Hget; simpl;
      split_on_network provider; simpl; try reflexivity;
      repeat step_handler; reflexivity. }
  assert (Hr1 : requests w1
                = (requests w ++ [(client_for token, request_of op1)])%list).
  { unfold w1. rewrite handler_requests, Hget. reflexivity. }
  split.
  - unfold w2. now apply handler_keeps_client.
  - unfold w2.
    rewrite handler_requests, (getApiClient_memo env' w1 Hc1), Hr1.
    now rewrite <- app_assoc.
Qed.

Lemma client_outlives_environment_witness :
  requests
    (snd (handler Example.plain_locale Example.no_token Example.offline
            (ListLocations (mkFormatParams MARKDOWN))
            (snd (handler Example.plain_locale Example.with_token
                    Example.offline
                    (ListServers (mkListServersParams None MARKDOWN))
                    initial_world))))
  = [ (client_for "secret",
       request_of (ListServers (mkListServersParams None MARKDOWN)));
      (client_for "secret",
       request_of (ListLocations (mkFormatParams MARKDOWN))) ].
Proof.
  apply (@client_outlives_environment Example.plain_locale Example.with_token
           Example.no_token Example.offline Example.offline
           (ListServers (mkListServersParams None MARKDOWN))
           (ListLocations (mkFormatParams MARKDOWN)) initial_world "secret");
    reflexivity.
Defined.

(** X3.  The check of [main] at startup and the check of [getApiClient] at
    first use agree: the process goes on to serve exactly when the first
    [getApiClient] succeeds, and it exits with code 1 exactly when the first
    [getApiClient] throws the configuration error. *)
Theorem startup_agrees_with_first_use (env : Env) :
  (main env = Serving
   <-> exists (c : AxiosInstance) (w : World),
         getApiClient env initial_world = (inr c, w))
  /\ (main env = Exit 1
      <-> getApiClient env initial_world
          = (inl (IsError "HETZNER_API_TOKEN environment variable is required"),
             initial_world)).
Proof.
  unfold main, getApiClient. simpl.
  destruct (HETZNER_API_TOKEN env) as [token |]; [ destruct (truthy token) | ].
  - split; split; intros H; try discriminate H; try reflexivity.
    eexists _, _. reflexivity.
  - split; split; intros H; try discriminate H; try reflexivity.
    destruct H as [c [w H]]. discriminate H.
  - split; split; intros H; try discriminate H; try reflexivity.
    destruct H as [c [w H]]. discriminate H.
Qed.

(** ** Input schemas *)

(** X4.  Each of the seven tools that take an [id] refuses the call exactly
    when the id is not an integer above zero (a number that is zero or
    below, or a number that is not an integer); a refused call leaves the
    state as it was, so nothing is sent. *)
Theorem id_must_be_positive
    (toLocaleString : string -> string) (env : Env) (provider : Provider)
    (a : Schema.NumberArg) (f : option ResponseFormat) (w : World) :
  Forall
    (fun c : ToolCall =>
       (parse c = None <-> ~ positive_integer a)
       /\ (~ positive_integer a ->
           call_tool toLocaleString env provider c w = (Refused, w)))
    (id_calls a f).
Proof.
  assert (Hcases : (Schema.positive_int a = None /\ ~ positive_integer a)
                   \/ (exists n, Schema.positive_int a = Some n
                                 /\ positive_integer a)).
  { destruct a as [n | b]; simpl.
    - destruct (0 <? n) eqn:E.
      + right. exists n. split; [ reflexivity | ].
        exists n. split; [ reflexivity | now apply Z.ltb_lt ].
      + left. split; [ reflexivity | ].
        intros [m [Hm Hpos]]. injection Hm as <-.
        apply Z.ltb_ge in E. lia.
    - left. split; [ reflexivity | ].
      intros [m [Hm _]]. discriminate Hm. }
  unfold id_calls, call_tool.
  destruct Hcases as [[Hnone Hnot] | [n [Hsome Hpos]]];
    repeat constructor; simpl; try rewrite Hnone; try rewrite Hsome; simpl;
    intros; try discriminate; try reflexivity; try assumption;
    try contradiction.
Qed.

Lemma all_chars_false_inv (f : ascii -> bool) (s : string) :
  Schema.all_chars f s = false ->
  exists c : ascii, In c (list_ascii_of_string s) /\ f c = false.
Proof.
  induction s as [| a s IH]; simpl; [ discriminate | ].
  destruct (f a) eqn:Ha; simpl.
  - intros H. destruct (IH H) as [c [Hin Hc]]. exists c. auto.
  - intros _. exists a. auto.
Qed.

Lemma min_1_false (s : string) : Schema.min 1 s = false <-> s = EmptyString.
Proof.
  destruct s as [| c s]; [ split; reflexivity | ].
  split; [ | discriminate ].
  unfold Schema.min, String_length. cbn [utf16_units]. cbv zeta.
  destruct (continuation (nat_of_ascii c));
    [ | destruct (nat_of_ascii c <? 128)%nat;
        [ | destruct (nat_of_ascii c <? 224)%nat;
            [ | destruct (nat_of_ascii c <? 240)%nat ] ] ];
    discriminate.
Qed.

Lemma create_server_name_false (s : string) :
  Schema.create_server_name s = false <-> invalid_server_name s.
Proof.
  split; [ | apply invalid_server_name_refused ].
  unfold Schema.create_server_name, Schema.max, Schema.name_regex.
  intros H.
  destruct (Schema.all_chars Schema.name_char s) eqn:Hchars.
  - rewrite (@name_chars_length s Hchars) in H.
    apply andb_false_iff in H. destruct H as [H | H].
    + apply andb_false_iff in H. destruct H as [H | H].
      * left. now apply min_1_false.
      * right. left. now apply Nat.leb_gt.
    + rewrite andb_true_r in H. left.
      destruct s; [ reflexivity | discriminate H ].
  - right. right. destruct (all_chars_false_inv _ _ Hchars) as [c [Hin Hc]].
    exists c. rewrite <- name_char_allowed. auto.
Qed.

(** The record parser keeps the labels of the input but the one named
    [__proto__]. *)
Lemma record_labels (o : Obj.t string) (k v : string) :
  In (k, v) (Schema.record o) <-> In (k, v) o /\ k <> "__proto__".
Proof.
  unfold Schema.record. rewrite filter_In. simpl.
  split.
  - intros [Hin Hk]. split.
    + apply (Permutation_in _ (entries_perm o) Hin).
    + intros ->. discriminate Hk.
  - intros [Hin Hk]. split.
    + apply (Permutation_in _ (Permutation_sym (entries_perm o)) Hin).
    + destruct (String.eqb_spec k "__proto__"); [ contradiction | reflexivity ].
Qed.

(** X5.  The schema of [hetzner_create_server] refuses a call exactly when
    the name is invalid or the server type or the image is empty.  A call
    that passes reaches the handler with its name, server type, image,
    location and SSH keys unchanged, with the labels of the input but a
    label named [__proto__], which the record parser leaves out, and with
    [start_after_create] set to [true] and the format to markdown where
    they were left out. *)
Theorem create_server_schema (input : CreateServerInput) :
  (parse (call_create_server input) = None
   <-> invalid_server_name (in_name input)
       \/ in_server_type input = EmptyString
       \/ in_image input = EmptyString)
  /\ (forall op : Operation,
        parse (call_create_server input) = Some op ->
        exists labels : option (Obj.t string),
          op = CreateServer
                 (mkCreateServerParams (in_name input) (in_server_type input)
                    (in_image input) (in_location input) (in_ssh_keys input)
                    labels
                    match in_start_after_create input with
                    | Some b => b
                    | None => true
                    end
                    match in_response_format input with
                    | Some format => format
                    | None => MARKDOWN
                    end)
          /\ match in_labels input, labels with
             | Some given, Some parsed =>
                 forall k v : string,
                   In (k, v) parsed <-> In (k, v) given /\ k <> "__proto__"
             | None, None => True
             | _, _ => False
             end).
Proof.
  simpl. unfold parse_create_server, guard.
  destruct (Schema.create_server_name (in_name input)) eqn:Hname;
    destruct (Schema.min 1 (in_server_type input)) eqn:Htype;
    destruct (Schema.min 1 (in_image input)) eqn:Himage; simpl.
  1: { split.
       - split; [ discriminate | ].
         intros [H | [H | H]].
         + apply create_server_name_false in H. congruence.
         + apply min_1_false in H. congruence.
         + apply min_1_false in H. congruence.
       - intros op H. injection H as <-.
         exists (option_map Schema.record (in_labels input)).
         split; [ reflexivity | ].
         destruct (in_labels input) as [given |]; simpl; [ | exact I ].
         intros k v. apply record_labels. }
  all: split; [ split; [ intros _ | reflexivity ] | discriminate ].
  all: try (right; right; now apply min_1_false).
  all: try (right; left; now apply min_1_false).
  all: left; now apply create_server_name_false.
Qed.

(** X6.  The schema of [hetzner_create_ssh_key] refuses a call exactly when
    the name is empty or has more than 255 UTF-16 code units or the public
    key is empty; unlike a server name, the name of a key may hold any
    character.  For a name of letters, digits and hyphens the code units
    are the bytes. *)
Theorem create_ssh_key_schema (name public_key : string)
    (labels : option (Obj.t string)) (f : option ResponseFormat) :
  (parse (call_create_ssh_key name public_key labels f) = None
   <-> name = EmptyString
       \/ (255 < String_length name)%nat
       \/ public_key = EmptyString)
  /\ (forallb allowed_char (list_ascii_of_string name) = true ->
      String_length name = String.length name).
Proof.
  split.
  - simpl. unfold guard, Schema.max.
    destruct (Schema.min 1 name) eqn:Hname;
      destruct (Nat.leb (String_length name) 255) eqn:Hlen;
      destruct (Schema.min 1 public_key) eqn:Hkey; simpl.
    1: { split; [ discriminate | ].
         intros [H | [H | H]].
         - apply min_1_false in H. congruence.
         - apply Nat.leb_gt in H. congruence.
         - apply min_1_false in H. congruence. }
    all: split; [ intros _ | reflexivity ].
    all: try (right; right; now apply min_1_false).
    all: try (right; left; now apply Nat.leb_gt).
    all: left; now apply min_1_false.
  - intros H. apply name_chars_length.
    induction name as [| c name IH]; [ reflexivity | ].
    simpl in H. apply andb_prop in H. destruct H as [Hc Hrest].
    cbn [Schema.all_chars]. rewrite name_char_allowed, Hc. now apply IH.
Qed.

(** ** Optional parameters that are empty *)

(** X7.  An empty [label_selector] and an empty [location] are dropped like
    absent ones, and the calls behave as the calls without them.  An empty
    [labels] object is not dropped: it is sent as the member [labels] of the
    request body, which the call without labels does not have. *)
Theorem empty_optional_parameters
    (toLocaleString : string -> string) (env : Env) (provider : Provider)
    (format : ResponseFormat) (p : CreateServerParams) (w : World) :
  params (request_of (ListServers (mkListServersParams (Some EmptyString) format)))
  = Some []
  /\ hetzner_list_servers toLocaleString env provider
       (mkListServersParams (Some EmptyString) format) w
     = hetzner_list_servers toLocaleString env provider
         (mkListServersParams None format) w
  /\ Obj.get_own (create_server_body (with_location p (Some EmptyString)))
       "location"
     = None
  /\ hetzner_create_server toLocaleString env provider
       (with_location p (Some EmptyString)) w
     = hetzner_create_server toLocaleString env provider
         (with_location p None) w
  /\ Obj.get_own (create_server_body (with_labels p (Some []))) "labels"
     = Some (JSON.Object [])
  /\ Obj.get_own (create_server_body (with_labels p None)) "labels" = None.
Proof.
  repeat split.
  - unfold create_server_body, with_location, set_when; simpl.
    destruct (cs_ssh_keys p) as [[| k ks] |]; destruct (cs_labels p);
      reflexivity.
  - unfold create_server_body, with_labels, set_when; simpl.
    destruct (cs_location p) as [l |]; [ destruct (truthy l) | ];
      destruct (cs_ssh_keys p) as [[| k ks] |]; reflexivity.
  - unfold create_server_body, with_labels, set_when; simpl.
    destruct (cs_location p) as [l |]; [ destruct (truthy l) | ];
      destruct (cs_ssh_keys p) as [[| k ks] |]; reflexivity.
Qed.

(** ** Edges of the error normalizer *)

(** X8.  When the provider answered, the [code] of the error plays no part
    in the message.  When it did not, only the codes [ECONNABORTED] and
    [ENOTFOUND] are told apart, and their messages do not depend on the
    text of the error; any other code, or none, gives [Error: ] followed by
    the text of the error, as for an [Error] that is not an [AxiosError]. *)
Theorem handleApiError_codes (message : string) :
  (forall (code code' : option string) (r : AxiosResponse),
     handleApiError (IsAxiosError (mkAxiosError message code (Some r)))
     = handleApiError (IsAxiosError (mkAxiosError message code' (Some r))))
  /\ handleApiError
       (IsAxiosError (mkAxiosError message (Some "ECONNABORTED") None))
     = inr "Error: Request timed out. Please try again."
  /\ handleApiError
       (IsAxiosError (mkAxiosError message (Some "ENOTFOUND") None))
     = inr "Error: Could not connect to Hetzner API. Please check your internet connection."
  /\ handleApiError (IsAxiosError (mkAxiosError message None None))
     = handleApiError (IsError message)
  /\ (forall code : string,
        code <> "ECONNABORTED" ->
        code <> "ENOTFOUND" ->
        handleApiError (IsAxiosError (mkAxiosError message (Some code) None))
        = inr ("Error: " ++ message)).
Proof.
  repeat split.
  intros code Hab Hnf. unfold handleApiError, code_is; simpl.
  destruct (String.eqb_spec code "ECONNABORTED") as [H | _];
    [ contradiction | ].
  destruct (String.eqb_spec code "ENOTFOUND") as [H | _];
    [ contradiction | ].
  reflexivity.
Qed.

(** X9.  When the answer of the provider carries no detail (no body, no
    [error] member, or an empty message), the statuses 403, 404, 409 and
    422 give their fixed default texts, and a status outside the table
    gives the status followed by the text of the error itself. *)
Theorem handleApiError_without_detail (message : string)
    (code : option string) (r : AxiosResponse) :
  provider_detail (IsAxiosError (mkAxiosError message code (Some r))) = None ->
  let m := handleApiError (IsAxiosError (mkAxiosError message code (Some r))) in
  (resp_status r = 403 ->
   m = inr "Error: Permission denied. You don't have access to this resource.")
  /\ (resp_status r = 404 ->
      m = inr "Error: Resource not found. Please check the ID is correct.")
  /\ (resp_status r = 409 ->
      m = inr "Error: Conflict. The resource is in a conflicting state.")
  /\ (resp_status r = 422 ->
      m = inr "Error: Invalid request. Please check your parameters.")
  /\ (~ In (resp_status r) [401; 403; 404; 409; 422; 429; 503] ->
      m = inr ("Error: API request failed (" ++ Number_toString (resp_status r)
               ++ "). " ++ message)).
Proof.
  intros Hnone.
  assert (Hd : forall default : Value,
             or_value (hetznerError_message r) default = default).
  { intros default. rewrite (detail_agrees message code r).
    unfold detail_or. now rewrite Hnone. }
  cbv zeta. unfold handleApiError. cbn [ax_response ax_message].
  rewrite !Hd.
  repeat split.
  1-4: intros ->; reflexivity.
  intros Hother.
  assert (Hne : forall s : number,
             In s [401; 403; 404; 409; 422; 429; 503] ->
             (resp_status r =? s) = false).
  { intros s Hin. apply Z.eqb_neq. intros Heq. apply Hother.
    now rewrite Heq. }
  rewrite !Hne by (simpl; tauto).
  unfold template. simpl. now rewrite append_assoc.
Qed.

Lemma handleApiError_without_detail_witness :
  handleApiError
    (IsAxiosError
       (mkAxiosError "Request failed with status code 500" (Some "ERR_BAD_RESPONSE")
          (Some (mkResponse 500 (Some (mkApiError None))))))
  = inr "Error: API request failed (500). Request failed with status code 500".
Proof.
  apply (@handleApiError_without_detail "Request failed with status code 500"
           (Some "ERR_BAD_RESPONSE")
           (mkResponse 500 (Some (mkApiError None))) eq_refl).
  simpl. intros H.
  repeat (destruct H as [H | H]; [ discriminate H | ]). exact H.
Defined.

(** ** Reading and writing own properties *)

Lemma get_own_set_same (V : Type) (o : Obj.t V) (k : string) (v : V) :
  Obj.get_own (Obj.set o k v) k = Some v.
Proof.
  induction o as [| [k' v'] o IH]; simpl.
  - now rewrite String.eqb_refl.
  - destruct (String.eqb k' k) eqn:E; simpl; rewrite E; [ reflexivity | exact IH ].
Qed.

Lemma get_own_set_other (V : Type) (o : Obj.t V) (k k' : string) (v : V) :
  k <> k' -> Obj.get_own (Obj.set o k v) k' = Obj.get_own o k'.
Proof.
  intros Hne. induction o as [| [k0 v0] o IH]; simpl.
  - destruct (String.eqb_spec k k'); [ contradiction | reflexivity ].
  - destruct (String.eqb_spec k0 k) as [-> | Hk]; simpl.
    + destruct (String.eqb_spec k k'); [ contradiction | reflexivity ].
    + now rewrite IH.
Qed.

Lemma get_own_none_keys (V : Type) (o : Obj.t V) (k : string) :
  Obj.get_own o k = None -> ~ In k (map fst o).
Proof.
  induction o as [| [k' v'] o IH]; simpl; [ tauto | ].
  destruct (String.eqb_spec k' k); [ discriminate | ].
  intros H [Heq | Hin]; [ contradiction | now apply IH ].
Qed.

Lemma get_own_some_in (V : Type) (o : Obj.t V) (k : string) (v : V) :
  Obj.get_own o k = Some v -> In (k, v) o.
Proof.
  induction o as [| [k' v'] o IH]; simpl; [ discriminate | ].
  destruct (String.eqb_spec k' k) as [-> | _].
  - intros H. injection H as ->. now left.
  - intros H. right. now apply IH.
Qed.

Lemma in_get_own (V : Type) (o : Obj.t V) (k : string) (v : V) :
  NoDup (map fst o) -> In (k, v) o -> Obj.get_own o k = Some v.
Proof.
  induction o as [| [k' v'] o IH]; simpl; [ contradiction | ].
  intros Hnd [Heq | Hin].
  - injection Heq as -> ->. now rewrite String.eqb_refl.
  - inversion Hnd as [| ? ? Hnotin Hnd']; subst.
    destruct (String.eqb_spec k' k) as [-> | _].
    + exfalso. apply Hnotin. change k with (fst (k, v)). now apply in_map.
    + now apply IH.
Qed.

Lemma set_keys (V : Type) (o : Obj.t V) (k : string) (v : V) :
  map fst (Obj.set o k v)
  = match Obj.get_own o k with
    | Some _ => map fst o
    | None => (map fst o ++ [k])%list
    end.
Proof.
  induction o as [| [k' v'] o IH]; simpl; [ reflexivity | ].
  destruct (String.eqb_spec k' k) as [-> | _]; simpl; [ reflexivity | ].
  rewrite IH. now destruct (Obj.get_own o k).
Qed.

Lemma set_keys_nodup (V : Type) (o : Obj.t V) (k : string) (v : V) :
  NoDup (map fst o) -> NoDup (map fst (Obj.set o k v)).
Proof.
  intros Hnd. rewrite set_keys.
  destruct (Obj.get_own o k) eqn:Hown; [ exact Hnd | ].
  apply NoDup_app; [ exact Hnd | repeat constructor; simpl; tauto | ].
  intros x Hx [<- | []]. now apply (get_own_none_keys _ _ Hown).
Qed.

(** ** Groups of images *)

Lemma group_of_snoc (k : string) (done : list HetznerImage)
    (img : HetznerImage) :
  group_of k (done ++ [img])
  = if String.eqb (flavor_of img) k
    then Some (match group_of k done with
               | Some g => g
               | None => []
               end ++ [img])%list
    else group_of k done.
Proof.
  unfold group_of. rewrite filter_app. simpl. unfold has_flavor at 2.
  destruct (String.eqb (flavor_of img) k).
  - destruct (filter (has_flavor k) done); reflexivity.
  - now rewrite app_nil_r.
Qed.

Lemma group_by_flavor_groups (imgs : list HetznerImage) :
  forall (done : list HetznerImage) (acc groups : Obj.t (list HetznerImage)),
    NoDup (map fst acc) ->
    (forall k, Obj.get_own acc k = group_of k done) ->
    group_by_flavor imgs acc = inr groups ->
    NoDup (map fst groups)
    /\ (forall k, Obj.get_own groups k = group_of k (done ++ imgs)).
Proof.
  induction imgs as [| img imgs IH]; cbn [group_by_flavor];
    intros done acc groups Hnd Hinv H.
  - injection H as <-. rewrite app_nil_r. auto.
  - cbv zeta in H.
    replace (done ++ img :: imgs)%list with ((done ++ [img]) ++ imgs)%list
      by (now rewrite <- app_assoc).
    assert (Hstep : forall group,
               Obj.get_own acc (flavor_of img) = group ->
               forall k,
                 Obj.get_own
                   (Obj.set acc (flavor_of img)
                      (match group with Some g => g | None => [] end ++ [img])%list)
                   k
                 = group_of k (done ++ [img])).
    { intros group Hown k. rewrite group_of_snoc.
      destruct (String.eqb_spec (flavor_of img) k) as [<- | Hne].
      - rewrite get_own_set_same, <- Hinv, Hown. reflexivity.
      - rewrite get_own_set_other by exact Hne. apply Hinv. }
    destruct (Obj.get_own acc (flavor_of img)) as [group |] eqn:Hown.
    + apply (IH (done ++ [img])%list _ _ (set_keys_nodup _ _ _ Hnd)
               (Hstep _ eq_refl) H).
    + destruct (Obj.inherited (flavor_of img)); [ discriminate H | ].
      apply (IH (done ++ [img])%list _ _ (set_keys_nodup _ _ _ Hnd)
               (Hstep _ eq_refl) H).
Qed.

Lemma group_by_flavor_inherited (imgs : list HetznerImage) :
  forall acc : Obj.t (list HetznerImage),
    (forall k, Obj.inherited k = true -> Obj.get_own acc k = None) ->
    (exists img, In img imgs /\ Obj.inherited (flavor_of img) = true) ->
    group_by_flavor imgs acc
    = inl (IsError "byFlavor[flavor].push is not a function").
Proof.
  induction imgs as [| img imgs IH]; cbn [group_by_flavor];
    intros acc Hacc [bad [Hin Hbad]]; [ contradiction | ].
  cbv zeta.
  destruct (Obj.inherited (flavor_of img)) eqn:Himg.
  - now rewrite (Hacc _ Himg).
  - assert (Hrest : exists img', In img' imgs
                                 /\ Obj.inherited (flavor_of img') = true).
    { destruct Hin as [-> | Hin]; [ congruence | eauto ]. }
    assert (Hset : forall v k,
               Obj.inherited k = true ->
               Obj.get_own (Obj.set acc (flavor_of img) v) k = None).
    { intros v k Hk. rewrite get_own_set_other; [ now apply Hacc | ].
      intros Heq. congruence. }
    destruct (Obj.get_own acc (flavor_of img)); apply IH; auto.
Qed.

Lemma list_images_markdown (env : Env) (provider : Provider)
    (p : ListImagesParams) (w w1 : World) (c : AxiosInstance)
    (answer : ListImagesResponse) :
  getApiClient env w = (inr c, w1) ->
  net_list_images provider c (request_of (ListImages p)) = inr answer ->
  li_response_format p = MARKDOWN ->
  fst (hetzner_list_images env provider p w)
  = match group_by_flavor (filter is_available (images answer)) [] with
    | inr groups =>
        inr (text_result
               (lines_text
                  ([ "# Available Images"; EmptyString ]
                   ++ flat_map flavor_lines (Obj.entries groups))))
    | inl e =>
        match handleApiError e with
        | inr m => inr (mkResult [m] true)
        | inl thrown => inl thrown
        end
    end.
Proof.
  intros Hget Hnet Hmd.
  unfold hetzner_list_images, hetzner_list_images_try, try_catch, bind.
  erewrite makeApiRequest_resolved; [ | exact Hget | exact Hnet ].
  rewrite Hmd. unfold lift, ret, catch_clause, bind, lift, ret.
  destruct (group_by_flavor (filter is_available (images answer)) [])
    as [e | groups]; [ | reflexivity ].
  destruct (handleApiError e); reflexivity.
Qed.

(** X10.  When an available image of the answer has a flavor named like a
    member of [Object.prototype] ([constructor], [toString], ...), the
    markdown listing fails as a whole: the handler returns the error result
    of the [TypeError] thrown by [push].  The JSON listing of the same
    answer is not affected. *)
Theorem list_images_inherited_flavor (env : Env) (provider : Provider)
    (p : ListImagesParams) (w w1 : World) (c : AxiosInstance)
    (answer : ListImagesResponse) (img : HetznerImage) :
  getApiClient env w = (inr c, w1) ->
  net_list_images provider c (request_of (ListImages p)) = inr answer ->
  In img (images answer) ->
  img_status img = Available ->
  Obj.inherited (flavor_of img) = true ->
  (li_response_format p = MARKDOWN ->
   fst (hetzner_list_images env provider p w)
   = inr (mkResult ["Error: byFlavor[flavor].push is not a function"] true))
  /\ (li_response_format p = JSON_FORMAT ->
      fst (hetzner_list_images env provider p w)
      = inr (text_result
               (JSON.stringify
                  (JSON.Arr
                     (map ToJSON.image
                        (filter is_available (images answer))))))).
Proof.
  intros Hget Hnet Hin Hstatus Hflavor. split.
  - intros Hmd. rewrite (@list_images_markdown _ _ _ _ _ _ _ Hget Hnet Hmd).
    rewrite group_by_flavor_inherited; [ reflexivity | reflexivity | ].
    exists img. split; [ | exact Hflavor ].
    apply filter_In. split; [ exact Hin | ].
    unfold is_available. now rewrite Hstatus.
  - intros Hjson.
    unfold hetzner_list_images, hetzner_list_images_try, try_catch, bind.
    erewrite makeApiRequest_resolved; [ | exact Hget | exact Hnet ].
    now rewrite Hjson.
Qed.

Lemma list_images_inherited_flavor_witness :
  fst (hetzner_list_images Example.with_token MoreExamples.odd_catalog
         (mkListImagesParams (Some Snapshot) MARKDOWN) initial_world)
  = inr (mkResult ["Error: byFlavor[flavor].push is not a function"] true).
Proof.
  assert (Hget : getApiClient Example.with_token initial_world
                 = (inr (client_for "secret"),
                    mkWorld (Some (client_for "secret")) []))
    by reflexivity.
  assert (Hnet : net_list_images MoreExamples.odd_catalog (client_for "secret")
                   (request_of
                      (ListImages (mkListImagesParams (Some Snapshot) MARKDOWN)))
                 = inr (mkListImages [Example.ubuntu; MoreExamples.odd_flavor]))
    by reflexivity.
  apply (@list_images_inherited_flavor Example.with_token
           MoreExamples.odd_catalog
           (mkListImagesParams (Some Snapshot) MARKDOWN) initial_world _ _ _
           MoreExamples.odd_flavor Hget Hnet).
  - simpl. tauto.
  - reflexivity.
  - reflexivity.
  - reflexivity.
Defined.

(** X11.  In the markdown listing of images, as long as no flavor is named
    like a member of [Object.prototype], the text is the header followed by
    one section per flavor: no flavor has two sections, and the images of a
    section are exactly the available images of its flavor, in the order of
    the answer (an empty flavor counts as [other]). *)
Theorem list_images_sections (env : Env) (provider : Provider)
    (p : ListImagesParams) (w w1 : World) (c : AxiosInstance)
    (answer : ListImagesResponse) :
  getApiClient env w = (inr c, w1) ->
  net_list_images provider c (request_of (ListImages p)) = inr answer ->
  li_response_format p = MARKDOWN ->
  let available := filter is_available (images answer) in
  (forall img : HetznerImage,
     In img available -> Obj.inherited (flavor_of img) = false) ->
  exists sections : list (string * list HetznerImage),
    fst (hetzner_list_images env provider p w)
    = inr (text_result
             (lines_text
                ([ "# Available Images"; EmptyString ]
                 ++ flat_map flavor_lines sections)))
    /\ NoDup (map fst sections)
    /\ (forall (flavor : string) (group : list HetznerImage),
          In (flavor, group) sections
          <-> group_of flavor available = Some group).
Proof.
  intros Hget Hnet Hmd available Hplain.
  destruct (group_by_flavor_succeeds available Hplain []) as [groups Hgroups].
  destruct (@group_by_flavor_groups available [] [] groups (NoDup_nil _)
              (fun k => eq_refl) Hgroups) as [Hnd Hown].
  simpl in Hown.
  pose proof (entries_perm groups) as Hperm.
  exists (Obj.entries groups). split; [ | split ].
  - rewrite (@list_images_markdown _ _ _ _ _ _ _ Hget Hnet Hmd).
    fold available. now rewrite Hgroups.
  - apply (Permutation_NoDup (l := map fst groups)); [ | exact Hnd ].
    apply Permutation_map, Permutation_sym, Hperm.
  - intros flavor group. rewrite <- Hown. split.
    + intros Hin. apply in_get_own; [ exact Hnd | ].
      apply (Permutation_in _ Hperm Hin).
    + intros H. apply (Permutation_in _ (Permutation_sym Hperm)).
      now apply get_own_some_in.
Qed.

Lemma list_images_sections_witness :
  exists sections : list (string * list HetznerImage),
    fst (hetzner_list_images Example.with_token Example.two_images
           (mkListImagesParams None MARKDOWN) initial_world)
    = inr (text_result
             (lines_text
                ([ "# Available Images"; EmptyString ]
                 ++ flat_map flavor_lines sections)))
    /\ NoDup (map fst sections)
    /\ (forall (flavor : string) (group : list HetznerImage),
          In (flavor, group) sections
          <-> group_of flavor [Example.ubuntu] = Some group).
Proof.
  assert (Hget : getApiClient Example.with_token initial_world
                 = (inr (client_for "secret"),
                    mkWorld (Some (client_for "secret")) []))
    by reflexivity.
  assert (Hnet : net_list_images Example.two_images (client_for "secret")
                   (request_of (ListImages (mkListImagesParams None MARKDOWN)))
                 = inr (mkListImages [Example.ubuntu; Example.debian_creating]))
    by reflexivity.
  apply (@list_images_sections Example.with_token Example.two_images
           (mkListImagesParams None MARKDOWN) initial_world _ _ _
           Hget Hnet eq_refl).
  intros img [<- | []]. reflexivity.
Defined.

(** ** The shape of the blocks *)

Lemma labels_lines_length (labels : Obj.t string) :
  List.length (labels_lines labels) = count_if (nonempty labels).
Proof.
  destruct labels as [| kv rest]; [ reflexivity | ].
  rewrite labels_lines_nonempty by discriminate. reflexivity.
Qed.

(** X12.  The block of a server has seven lines, one more when the server
    has an image and one more when it has labels.  Its third and fourth
    lines show the addresses; an address that is missing, or whose [ip] is
    empty, is shown as [N/A]. *)
Theorem formatServer_shape (toLocaleString : string -> string)
    (s : HetznerServer) :
  let lines := formatServer_lines toLocaleString s in
  List.length lines
  = (7 + count_if (has_image s) + count_if (nonempty (server_labels s)))%nat
  /\ line_at 2 lines
     = "- **IPv4**: "
       ++ match ipv4 (public_net s) with
          | Some (mkIp (String a rest)) => String a rest
          | _ => "N/A"
          end
  /\ line_at 3 lines
     = "- **IPv6**: "
       ++ match ipv6 (public_net s) with
          | Some (mkIp (String a rest)) => String a rest
          | _ => "N/A"
          end.
Proof.
  unfold formatServer_lines, has_image. split; [ | split ].
  - rewrite !length_app, labels_lines_length.
    destruct (image s); simpl; lia.
  - destruct (ipv4 (public_net s)) as [[[| a rest]] |]; reflexivity.
  - destruct (ipv6 (public_net s)) as [[[| a rest]] |]; reflexivity.
Qed.

(** X13.  The block of an SSH key has three lines that are not labels
    lines: the heading with the name and the id, the fingerprint, and the
    creation time as the locale of the host renders it.  A labels line
    follows exactly when the key has labels; it shows the [key=value] pairs
    of the label map, each once, separated by a comma and a space. *)
Theorem formatSSHKey_shape (toLocaleString : string -> string)
    (k : HetznerSSHKey) :
  exists base : list string,
    base
    = [ "## " ++ key_name k ++ " (ID: " ++ Number_toString (key_id k) ++ ")";
        "- **Fingerprint**: " ++ key_fingerprint k;
        "- **Created**: " ++ toLocaleString (key_created k) ]
    /\ List.length base = 3%nat
    /\ Forall not_labels_line base
    /\ (key_labels k = [] -> formatSSHKey_lines toLocaleString k = base)
    /\ (key_labels k <> [] ->
        exists pairs : list (string * string),
          Permutation pairs (key_labels k)
          /\ formatSSHKey_lines toLocaleString k
             = (base
                ++ [ ("- **Labels**: "
                      ++ join ", "
                           (map (fun kv => fst kv ++ "=" ++ snd kv) pairs))%string ])%list).
Proof.
  unfold formatSSHKey_lines.
  exists [ "## " ++ key_name k ++ " (ID: " ++ Number_toString (key_id k) ++ ")";
           "- **Fingerprint**: " ++ key_fingerprint k;
           "- **Created**: " ++ toLocaleString (key_created k) ].
  split; [ reflexivity | ].
  split; [ reflexivity | ].
  split; [ repeat constructor | ].
  split.
  - intros ->. reflexivity.
  - intros Hne. exists (Obj.entries (key_labels k)).
    split; [ apply entries_perm | ].
    rewrite (labels_lines_nonempty Hne). reflexivity.
Qed.

(** ** The catalog listings *)

Lemma server_type_lines_headings (types : list HetznerServerType) :
  filter is_heading (flat_map server_type_lines types)
  = map (fun st => "## " ++ st_name st) types
  /\ filter is_price_line (flat_map server_type_lines types)
     = flat_map first_price_line types.
Proof.
  induction types as [| st types [IHh IHp]]; [ split; reflexivity | ].
  cbn [flat_map map]. rewrite !filter_app, IHh, IHp.
  unfold server_type_lines, first_price_line.
  destruct (st_prices st) as [| price rest]; split; reflexivity.
Qed.

(** X14.  In the markdown listing of server types the headings are the
    names of the types of the answer, in its order, and the price lines are
    those of the types that have prices, one per type, showing the gross
    prices of the first entry of [prices] only. *)
Theorem list_server_types_listing (env : Env) (provider : Provider)
    (p : FormatParams) (w w1 : World) (c : AxiosInstance)
    (answer : ListServerTypesResponse) :
  getApiClient env w = (inr c, w1) ->
  net_list_server_types provider c (request_of (ListServerTypes p))
  = inr answer ->
  response_format p = MARKDOWN ->
  exists lines : list string,
    fst (hetzner_list_server_types env provider p w)
    = inr (text_result (lines_text lines))
    /\ filter is_heading lines
       = map (fun st => "## " ++ st_name st) (server_types answer)
    /\ filter is_price_line lines
       = flat_map first_price_line (server_types answer).
Proof.
  intros Hget Hnet Hmd.
  exists ([ "# Available Server Types"; EmptyString ]
          ++ flat_map server_type_lines (server_types answer))%list.
  destruct (server_type_lines_headings (server_types answer)) as [Hh Hp].
  split; [ | split; [ exact Hh | exact Hp ] ].
  unfold hetzner_list_server_types, hetzner_list_server_types_try, try_catch,
    bind.
  erewrite makeApiRequest_resolved; [ | exact Hget | exact Hnet ].
  now rewrite Hmd.
Qed.

Lemma location_lines_headings (locs : list HetznerLocation) :
  filter is_heading (flat_map location_lines locs)
  = map (fun loc => "## " ++ loc_name loc) locs
  /\ List.length (flat_map location_lines locs) = (5 * List.length locs)%nat.
Proof.
  induction locs as [| loc locs [IHh IHl]]; [ split; reflexivity | ].
  cbn [flat_map map]. rewrite filter_app, length_app, IHh, IHl.
  split; [ reflexivity | simpl; lia ].
Qed.

(** X15.  In the markdown listing of locations the headings are the names
    of the locations of the answer, in its order, and every location takes
    five lines after the two lines of the header. *)
Theorem list_locations_listing (env : Env) (provider : Provider)
    (p : FormatParams) (w w1 : World) (c : AxiosInstance)
    (answer : ListLocationsResponse) :
  getApiClient env w = (inr c, w1) ->
  net_list_locations provider c (request_of (ListLocations p)) = inr answer ->
  response_format p = MARKDOWN ->
  exists lines : list string,
    fst (hetzner_list_locations env provider p w)
    = inr (text_result (lines_text lines))
    /\ filter is_heading lines
       = map (fun loc => "## " ++ loc_name loc) (locations answer)
    /\ List.length lines = (2 + 5 * List.length (locations answer))%nat.
Proof.
  intros Hget Hnet Hmd.
  exists ([ "# Available Locations"; EmptyString ]
          ++ flat_map location_lines (locations answer))%list.
  destruct (location_lines_headings (locations answer)) as [Hh Hl].
  split; [ | split ].
  - unfold hetzner_list_locations, hetzner_list_locations_try, try_catch, bind.
    erewrite makeApiRequest_resolved; [ | exact Hget | exact Hnet ].
    now rewrite Hmd.
  - exact Hh.
  - rewrite length_app, Hl. reflexivity.
Qed.

Lemma list_server_types_listing_witness :
  exists lines : list string,
    fst (hetzner_list_server_types Example.with_token
           MoreExamples.small_catalog (mkFormatParams MARKDOWN) initial_world)
    = inr (text_result (lines_text lines))
    /\ filter is_heading lines = ["## cx22"]
    /\ filter is_price_line lines
       = ["- **Price**: €4.5101/month (€0.0071/hour)"].
Proof.
  assert (Hget : getApiClient Example.with_token initial_world
                 = (inr (client_for "secret"),
                    mkWorld (Some (client_for "secret")) []))
    by reflexivity.
  apply (@list_server_types_listing Example.with_token
           MoreExamples.small_catalog (mkFormatParams MARKDOWN) initial_world
           _ _ (mkListServerTypes [MoreExamples.cx22]) Hget eq_refl eq_refl).
Defined.

Lemma list_locations_listing_witness :
  exists lines : list string,
    fst (hetzner_list_locations Example.with_token
           MoreExamples.small_catalog (mkFormatParams MARKDOWN) initial_world)
    = inr (text_result (lines_text lines))
    /\ filter is_heading lines = ["## fsn1"]
    /\ List.length lines = 7%nat.
Proof.
  assert (Hget : getApiClient Example.with_token initial_world
                 = (inr (client_for "secret"),
                    mkWorld (Some (client_for "secret")) []))
    by reflexivity.
  apply (@list_locations_listing Example.with_token
           MoreExamples.small_catalog (mkFormatParams MARKDOWN) initial_world
           _ _ (mkListLocations [MoreExamples.fsn1]) Hget eq_refl eq_refl).
Defined.

(** ** Actions *)

(** X16.  The handlers of delete, power on, power off and reboot report the
    status the action has in the answer and never look further into it: an
    action that the provider reports as failed is returned like any other,
    as a text without the error flag.  Their requests carry no body and no
    query. *)
Theorem action_status_is_reported
    (toLocaleString : string -> string) (env : Env) (provider : Provider)
    (p : IdParams) (w w1 : World) (c : AxiosInstance)
    (op : Operation) (verb : string) (answer : ServerActionResponse) :
  getApiClient env w = (inr c, w1) ->
  In (op, verb) (action_operations p) ->
  net_server_action provider c (request_of op) = inr answer ->
  fst (handler toLocaleString env provider op w)
  = inr (text_result
           ("Server " ++ Number_toString (id p) ++ " is " ++ verb
              ++ ". Action status: "
              ++ ActionStatus_text (action_status (action answer))))
  /\ data (request_of op) = None
  /\ params (request_of op) = None.
Proof.
  intros Hget Hin Hnet. simpl in Hin.
  destruct Hin as [H | [H | [H | [H | []]]]]; injection H as <- <-;
    (split; [ | repeat split ]);
    simpl; unfold hetzner_delete_server, hetzner_power_on_server,
      hetzner_power_off_server, hetzner_reboot_server, server_action,
      server_action_try, try_catch, bind;
    (erewrite makeApiRequest_resolved; [ | exact Hget | exact Hnet ]);
    reflexivity.
Qed.

Lemma action_status_is_reported_witness :
  fst (handler Example.plain_locale Example.with_token
         MoreExamples.small_catalog (PowerOnServer (mkIdParams 42))
         initial_world)
  = inr (text_result "Server 42 is powering on. Action status: error").
Proof.
  assert (Hget : getApiClient Example.with_token initial_world
                 = (inr (client_for "secret"),
                    mkWorld (Some (client_for "secret")) []))
    by reflexivity.
  apply (@action_status_is_reported Example.plain_locale Example.with_token
           MoreExamples.small_catalog (mkIdParams 42) initial_world _ _
           (PowerOnServer (mkIdParams 42)) "powering on"
           (mkServerAction MoreExamples.failed_action) Hget).
  - simpl. tauto.
  - reflexivity.
Defined.

(** ** Listings that are not empty *)

Lemma listing_blocks (A : Type) (format : A -> string) (xs : list A) :
  (forall x, is_heading (format x) = true) ->
  filter is_heading (flat_map (fun x => [format x; EmptyString]) xs)
  = map format xs
  /\ List.length (flat_map (fun x => [format x; EmptyString]) xs)
     = (2 * List.length xs)%nat.
Proof.
  intros Hhead. induction xs as [| x xs [IHf IHl]]; [ split; reflexivity | ].
  cbn [flat_map map app filter List.length]. rewrite (Hhead x).
  cbn [is_heading starts_with filter]. rewrite IHf, IHl. split; [ reflexivity | lia ].
Qed.

Lemma formatServer_is_heading (toLocaleString : string -> string)
    (s : HetznerServer) :
  is_heading (formatServer toLocaleString s) = true.
Proof.
  unfold formatServer, lines_text, join, formatServer_lines. reflexivity.
Qed.

Lemma formatSSHKey_is_heading (toLocaleString : string -> string)
    (k : HetznerSSHKey) :
  is_heading (formatSSHKey toLocaleString k) = true.
Proof.
  unfold formatSSHKey, lines_text, join, formatSSHKey_lines. reflexivity.
Qed.

(** X17.  In markdown mode a listing of servers that is not empty is a
    header of four lines, whose third line counts the servers, followed by
    the block of each server of the answer, in its order, each followed by
    an empty line. *)
Theorem list_servers_listing
    (toLocaleString : string -> string) (env : Env) (provider : Provider)
    (label_selector : option string) (w w1 : World) (c : AxiosInstance)
    (first : HetznerServer) (others : list HetznerServer) :
  getApiClient env w = (inr c, w1) ->
  net_list_servers provider c
    (request_of (ListServers (mkListServersParams label_selector MARKDOWN)))
  = inr (mkListServers (first :: others)) ->
  exists lines : list string,
    fst (hetzner_list_servers toLocaleString env provider
           (mkListServersParams label_selector MARKDOWN) w)
    = inr (text_result (lines_text lines))
    /\ List.length lines = (4 + 2 * List.length (first :: others))%nat
    /\ line_at 2 lines
       = "Found " ++ length_toString (first :: others) ++ " server(s):"
    /\ filter is_heading lines
       = map (formatServer toLocaleString) (first :: others).
Proof.
  intros Hget Hnet.
  destruct (listing_blocks (formatServer toLocaleString) (first :: others)
              (formatServer_is_heading toLocaleString))
    as [Hblocks Hlen].
  exists (listing_lines
            [ "# Servers"; EmptyString;
              "Found " ++ length_toString (first :: others) ++ " server(s):";
              EmptyString ]
            (formatServer toLocaleString) (first :: others)).
  split; [ | split; [ | split ] ].
  - unfold hetzner_list_servers, hetzner_list_servers_try, try_catch, bind.
    erewrite makeApiRequest_resolved; [ | exact Hget | exact Hnet ].
    reflexivity.
  - unfold listing_lines. rewrite length_app, Hlen. reflexivity.
  - reflexivity.
  - unfold listing_lines.
    rewrite filter_app, Hblocks. reflexivity.
Qed.

Lemma list_servers_listing_witness :
  exists lines : list string,
    fst (hetzner_list_servers Example.plain_locale Example.with_token
           MoreExamples.small_project (mkListServersParams None MARKDOWN)
           initial_world)
    = inr (text_result (lines_text lines))
    /\ List.length lines = 6%nat
    /\ line_at 2 lines = "Found 1 server(s):"
    /\ filter is_heading lines
       = [formatServer Example.plain_locale Example.my_app].
Proof.
  assert (Hget : getApiClient Example.with_token initial_world
                 = (inr (client_for "secret"),
                    mkWorld (Some (client_for "secret")) []))
    by reflexivity.
  apply (@list_servers_listing Example.plain_locale Example.with_token
           MoreExamples.small_project None initial_world _ _
           Example.my_app [] Hget eq_refl).
Defined.

(** X18.  In markdown mode a listing of SSH keys that is not empty is a
    header of four lines, whose third line counts the keys, followed by the
    block of each key of the answer, in its order, each followed by an
    empty line. *)
Theorem list_ssh_keys_listing
    (toLocaleString : string -> string) (env : Env) (provider : Provider)
    (w w1 : World) (c : AxiosInstance)
    (first : HetznerSSHKey) (others : list HetznerSSHKey) :
  getApiClient env w = (inr c, w1) ->
  net_list_ssh_keys provider c
    (request_of (ListSSHKeys (mkFormatParams MARKDOWN)))
  = inr (mkListSSHKeys (first :: others)) ->
  exists lines : list string,
    fst (hetzner_list_ssh_keys toLocaleString env provider
           (mkFormatParams MARKDOWN) w)
    = inr (text_result (lines_text lines))
    /\ List.length lines = (4 + 2 * List.length (first :: others))%nat
    /\ line_at 2 lines
       = "Found " ++ length_toString (first :: others) ++ " SSH key(s):"
    /\ filter is_heading lines
       = map (formatSSHKey toLocaleString) (first :: others).
Proof.
  intros Hget Hnet.
  destruct (listing_blocks (formatSSHKey toLocaleString) (first :: others)
              (formatSSHKey_is_heading toLocaleString))
    as [Hblocks Hlen].
  exists (listing_lines
            [ "# SSH Keys"; EmptyString;
              "Found " ++ length_toString (first :: others) ++ " SSH key(s):";
              EmptyString ]
            (formatSSHKey toLocaleString) (first :: others)).
  split; [ | split; [ | split ] ].
  - unfold hetzner_list_ssh_keys, hetzner_list_ssh_keys_try, try_catch, bind.
    erewrite makeApiRequest_resolved; [ | exact Hget | exact Hnet ].
    reflexivity.
  - unfold listing_lines. rewrite length_app, Hlen. reflexivity.
  - reflexivity.
  - unfold listing_lines.
    rewrite filter_app, Hblocks. reflexivity.
Qed.

Lemma list_ssh_keys_listing_witness :
  exists lines : list string,
    fst (hetzner_list_ssh_keys Example.plain_locale Example.with_token
           MoreExamples.small_project (mkFormatParams MARKDOWN) initial_world)
    = inr (text_result (lines_text lines))
    /\ List.length lines = 6%nat
    /\ line_at 2 lines = "Found 1 SSH key(s):"
    /\ filter is_heading lines
       = [formatSSHKey Example.plain_locale MoreExamples.laptop_key].
Proof.
  assert (Hget : getApiClient Example.with_token initial_world
                 = (inr (client_for "secret"),
                    mkWorld (Some (client_for "secret")) []))
    by reflexivity.
  apply (@list_ssh_keys_listing Example.plain_locale Example.with_token
           MoreExamples.small_project initial_world _ _
           MoreExamples.laptop_key [] Hget eq_refl).
Defined.
